(** * HaircutPilot: slot generation, booking workflow, appointment storage
      and salon metrics

    A shallow embedding of
      - client/src/components/booking-form.tsx (generateTimeSlots, the step
        handlers and effects of BookingForm, handleFormSubmit),
      - the storage layer of the server, class DatabaseStorage (deleteService,
        deleteStylist, updateAppointment, cancelAppointment, getSalonMetrics),
        and the two routes that change an appointment,
      - the drizzle schema (the rows of the tables),
      - the buttons of the appointment dialog of the appointments page,
    followed by the properties proved about them.

    Conventions of the embedding.
      - A JavaScript [Date] is its time value: milliseconds since the epoch,
        an integer.  Local time is UTC shifted by a fixed offset [tz]
        (minutes east of Greenwich); daylight-saving changes are not modelled.
      - [new Date()] is an explicit argument [now] of the function that reads
        the clock; one reading is used per call.
      - A [decimal(10,2)] column is its number of hundredths ([Z]).  The
        revenue that getSalonMetrics adds up is an IEEE-754 double (a
        primitive [float]), since its last digits depend on the rounding of
        each addition.  The prices of the booking form and the average
        rating are exact rationals ([Q]); what is stated about them is
        stated up to that reading.  A division that would yield NaN or an
        infinity returns [None].
      - A table is the list of its rows, in the order a [select] returns
        them.  An [update] is modelled as leaving the row in its place; the
        database is free to return it elsewhere.  Where rows before and
        after an update are paired, each row is paired with its updated
        self; what is stated of the metrics after an update is stated of
        figures that do not depend on the order of the rows.
      - A varchar/text/uuid column is a [string]; a nullable column is an
        [option]. *)

From Stdlib Require Import ZArith QArith Qround List String Ascii Bool Lia Lqa.
From Stdlib Require Import Sorted Permutation.
From Stdlib Require PrimFloat Uint63.
Import ListNotations.

Local Open Scope string_scope.
Local Open Scope Z_scope.

(* ================================================================== *)
(** ** JavaScript dates (the part of [Date] and date-fns the code uses) *)

Module JsDate.

Definition Date := Z.

Definition msPerMinute : Z := 60000.
Definition msPerHour : Z := 3600000.
Definition msPerDay : Z := 86400000.

(** Days from 1970-01-01 to the civil date [y]-[m]-[d] (months 1..12). *)
Definition daysFromCivil (y m d : Z) : Z :=
  let y' := if m <=? 2 then y - 1 else y in
  let era := y' / 400 in
  let yoe := y' - era * 400 in
  let mp := (m + 9) mod 12 in
  let doy := (153 * mp + 2) / 5 + d - 1 in
  let doe := yoe * 365 + yoe / 4 - yoe / 100 + doy in
  era * 146097 + doe - 719468.

(** The time value of [y]-[m]-[d]T[h]:[mi]:00Z. *)
Definition utc (y m d h mi : Z) : Date :=
  daysFromCivil y m d * msPerDay + h * msPerHour + mi * msPerMinute.

Section LocalTime.
Variable tz : Z.

Definition localTime (d : Date) : Z := d + tz * msPerMinute.

(** [d.getHours()], [d.getMinutes()] *)
Definition getHours (d : Date) : Z := (localTime d / msPerHour) mod 24.
Definition getMinutes (d : Date) : Z := (localTime d / msPerMinute) mod 60.

(** [d.setHours(h, m, s, ms)]: the same local day, at the given time. *)
Definition setHours (d : Date) (h m s ms : Z) : Date :=
  (localTime d / msPerDay) * msPerDay
  + h * msPerHour + m * msPerMinute + s * 1000 + ms
  - tz * msPerMinute.

(** Minutes elapsed since local midnight. *)
Definition minuteOfDay (d : Date) : Z := (localTime d mod msPerDay) / msPerMinute.
End LocalTime.

(** date-fns [addMinutes(d, amount)] *)
Definition addMinutes (d : Date) (amount : Z) : Date := d + amount * msPerMinute.

Definition digit (n : Z) : ascii := ascii_of_nat (48 + Z.to_nat n).

Definition twoDigits (n : Z) : string :=
  String (digit (n / 10)) (String (digit (n mod 10)) EmptyString).

(** date-fns [format(d, 'HH:mm')] *)
Definition format_HHmm (tz : Z) (d : Date) : string :=
  twoDigits (getHours tz d) ++ ":" ++ twoDigits (getMinutes tz d).

End JsDate.

(* ================================================================== *)
(** ** booking-form.tsx: the slot generator *)

Module SlotGenerator.
Import JsDate.

Definition startHour : Z := 9.
Definition endHour : Z := 18.
Definition slotInterval : Z := 30.

(** [for (let i = lo; i < hi; i += step)]: the values [i] takes. *)
Fixpoint forLoop (fuel : nat) (i hi step : Z) : list Z :=
  match fuel with
  | O => []
  | S fuel' => if i <? hi then i :: forLoop fuel' (i + step) hi step else []
  end.

Definition forRange (lo hi step : Z) : list Z :=
  forLoop (Z.to_nat (hi - lo)) lo hi step.

Section Generator.
Variable tz : Z.
Variable now : Date.

(** The body of the inner loop: [Some slotStart] when the slot is pushed. *)
Definition slotAt (date : Date) (duration hour minute : Z) : option Date :=
  let slotStart := setHours tz date hour minute 0 0 in
  let slotEnd := addMinutes slotStart duration in
  if getHours tz slotEnd <=? endHour then
    let minimumTime := addMinutes now 120 in
    if minimumTime <? slotStart then Some slotStart else None
  else None.

Definition optList {A} (o : option A) : list A :=
  match o with Some a => [a] | None => [] end.

(** The start times of the slots pushed, in the order they are pushed. *)
Definition generatedSlotStarts (date : Date) (duration : Z) : list Date :=
  flat_map (fun hour =>
    flat_map (fun minute => optList (slotAt date duration hour minute))
             (forRange 0 60 slotInterval))
    (forRange startHour endHour 1).

(** [generateTimeSlots(date, duration)] *)
Definition generateTimeSlots (date : Date) (duration : Z) : list string :=
  flat_map (fun hour =>
    flat_map (fun minute =>
      let slotStart := setHours tz date hour minute 0 0 in
      let slotEnd := addMinutes slotStart duration in
      if getHours tz slotEnd <=? endHour then
        let minimumTime := addMinutes now 120 in
        if minimumTime <? slotStart
        then [format_HHmm tz slotStart]
        else []
      else [])
      (forRange 0 60 slotInterval))
    (forRange startHour endHour 1).
End Generator.

End SlotGenerator.

(* ================================================================== *)
(** ** The schema: rows of the tables *)

Module Schema.
Import JsDate.

(** The value of a [jsonb] column, as its JSON text. *)
Definition Json : Type := string.

Module Service.
Record t : Type := mk {
  id : string;
  salonId : string;
  name : string;
  description : option string;
  durationMinutes : Z;
  price : Z;                      (* decimal(10,2), in hundredths *)
  tags : option (list string);
  requiresDeposit : option bool;
  bufferBefore : option Z;
  bufferAfter : option Z;
  processingTime : option Z;
  isActive : option bool;
  createdAt : option Date
}.

Definition set_isActive (v : option bool) (s : t) : t :=
  mk (id s) (salonId s) (name s) (description s) (durationMinutes s)
     (price s) (tags s) (requiresDeposit s) (bufferBefore s)
     (bufferAfter s) (processingTime s) v (createdAt s).
End Service.

Module Stylist.
Record t : Type := mk {
  id : string;
  salonId : string;
  firstName : string;
  lastName : string;
  email : option string;
  phone : option string;
  photoUrl : option string;
  specialties : option (list string);
  schedule : option Json;
  vacations : option Json;
  isActive : option bool;
  createdAt : option Date
}.

Definition set_isActive (v : option bool) (s : t) : t :=
  mk (id s) (salonId s) (firstName s) (lastName s) (email s) (phone s)
     (photoUrl s) (specialties s) (schedule s) (vacations s) v
     (createdAt s).
End Stylist.

Module Appointment.
Record t : Type := mk {
  id : string;
  salonId : string;
  clientId : string;
  stylistId : option string;
  serviceIds : list string;
  startTime : Date;
  endTime : Date;
  status : string;     (* pending, confirmed, completed, cancelled, no_show *)
  channel : option string;
  totalAmount : Z;                (* decimal(10,2), in hundredths *)
  depositAmount : option Z;
  paymentStatus : option string;
  stripePaymentIntentId : option string;
  notes : option string;
  cancelledAt : option Date;
  cancellationReason : option string;
  remindersSent : option Json;
  createdAt : option Date;
  updatedAt : option Date
}.

(** [Partial<InsertAppointment>]: every insertable column may be absent. *)
Record partial : Type := mkPartial {
  p_salonId : option string;
  p_clientId : option string;
  p_stylistId : option (option string);
  p_serviceIds : option (list string);
  p_startTime : option Date;
  p_endTime : option Date;
  p_status : option string;
  p_channel : option (option string);
  p_totalAmount : option Z;
  p_depositAmount : option (option Z);
  p_paymentStatus : option (option string);
  p_stripePaymentIntentId : option (option string);
  p_notes : option (option string);
  p_cancelledAt : option (option Date);
  p_cancellationReason : option (option string);
  p_remindersSent : option (option Json)
}.

Definition noChange : partial :=
  mkPartial None None None None None None None None
            None None None None None None None None.
End Appointment.

Module Review.
Record t : Type := mk {
  id : string;
  salonId : string;
  clientId : string;
  appointmentId : option string;
  stylistId : option string;
  rating : Z;
  comment : option string;
  isPublic : option bool;
  response : option string;
  createdAt : option Date
}.
End Review.

End Schema.

(* ================================================================== *)
(** ** JavaScript numbers, truthiness and [Map] *)

Module Js.

(** [Number(s)] for the string of a [decimal(10,2)] column. *)
Definition Number_decimal (hundredths : Z) : Q := hundredths # 100.

(** The double nearest to an integer (below 2^53 in absolute value the
    integer itself). *)
Definition ofZ (z : Z) : PrimFloat.float :=
  match z with
  | Z0 => PrimFloat.zero
  | Zpos _ => PrimFloat.of_uint63 (Uint63.of_Z z)
  | Zneg _ => PrimFloat.opp (PrimFloat.of_uint63 (Uint63.of_Z (- z)))
  end.

(** [Number(s)] as the double it is: the double nearest to the decimal
    written in [s], which is what the correctly rounded quotient of the
    hundredths by 100 gives. *)
Definition Number_double (hundredths : Z) : PrimFloat.float :=
  PrimFloat.div (ofZ hundredths) (ofZ 100).

(** [Math.round(x)]: the nearest integer, a tie going up. *)
Definition Math_round (x : Q) : Q := inject_Z (Qfloor (x + (1 # 2))).

(** [a / b]; [None] stands for NaN and the infinities. *)
Definition div (a b : Q) : option Q :=
  if Qeq_bool b 0 then None else Some (a / b)%Q.

(** Truthiness of a nullable boolean. *)
Definition truthy (b : option bool) : bool :=
  match b with Some true => true | _ => false end.

(** [s || dflt] on a possibly undefined string: the empty string is falsy. *)
Definition orString (s : option string) (dflt : string) : string :=
  match s with
  | Some v => if String.eqb v "" then dflt else v
  | None => dflt
  end.

(** A [Map] with string keys: its entries in insertion order. *)
Module Map.
Definition t (V : Type) : Type := list (string * V).

Definition empty {V} : t V := [].

Fixpoint get {V} (k : string) (m : t V) : option V :=
  match m with
  | [] => None
  | (k', v) :: rest => if String.eqb k' k then Some v else get k rest
  end.

(** [m.set(k, v)]: an existing key keeps its place, a new one goes last. *)
Fixpoint set {V} (k : string) (v : V) (m : t V) : t V :=
  match m with
  | [] => [(k, v)]
  | (k', v') :: rest =>
      if String.eqb k' k then (k', v) :: rest
      else (k', v') :: set k v rest
  end.

(** [new Map(entries)] *)
Definition ofEntries {V} (es : list (string * V)) : t V :=
  fold_left (fun m e => set (fst e) (snd e) m) es empty.

(** [Array.from(m.entries())] *)
Definition entries {V} (m : t V) : list (string * V) := m.
End Map.

(** [arr.sort(compareFn)]: a stable sort; [compareFn a b < 0] puts [a]
    first.  Written as the insertion sort, whose result any stable sort
    shares. *)
Section Sort.
Context {A : Type} (compareFn : A -> A -> Z).

Fixpoint insert (x : A) (l : list A) : list A :=
  match l with
  | [] => [x]
  | y :: rest =>
      if compareFn x y <=? 0 then x :: y :: rest else y :: insert x rest
  end.

Definition sort (l : list A) : list A := fold_right insert [] l.
End Sort.

End Js.

(* ================================================================== *)
(** ** booking-form.tsx: the BookingForm component *)

Module BookingForm.
Import JsDate Schema.

(** The component's state ([useState]) and the watched form fields. *)
Record State : Type := mkState {
  currentStep : Z;
  selectedServices : list string;
  availableSlots : list string;
  totalDuration : Z;
  totalPrice : Q;
  watchedDate : option Date;
  watchedStylist : string
}.

Definition initial : State := mkState 1 [] [] 0 0%Q None "".

Definition set_currentStep (v : Z) (st : State) : State :=
  mkState v (selectedServices st) (availableSlots st) (totalDuration st)
          (totalPrice st) (watchedDate st) (watchedStylist st).
Definition set_selectedServices (v : list string) (st : State) : State :=
  mkState (currentStep st) v (availableSlots st) (totalDuration st)
          (totalPrice st) (watchedDate st) (watchedStylist st).
Definition set_availableSlots (v : list string) (st : State) : State :=
  mkState (currentStep st) (selectedServices st) v (totalDuration st)
          (totalPrice st) (watchedDate st) (watchedStylist st).
Definition set_totals (d : Z) (p : Q) (st : State) : State :=
  mkState (currentStep st) (selectedServices st) (availableSlots st) d p
          (watchedDate st) (watchedStylist st).
Definition set_watchedDate (v : option Date) (st : State) : State :=
  mkState (currentStep st) (selectedServices st) (availableSlots st)
          (totalDuration st) (totalPrice st) v (watchedStylist st).
Definition set_watchedStylist (v : string) (st : State) : State :=
  mkState (currentStep st) (selectedServices st) (availableSlots st)
          (totalDuration st) (totalPrice st) (watchedDate st) v.

Section Component.
Variable tz : Z.
Variable services : list Service.t.      (* the [services] prop *)

(** [services.find(s => s.id === serviceId)] *)
Definition findService (serviceId : string) : option Service.t :=
  find (fun s => String.eqb (Service.id s) serviceId) services.

(** [selectedServices.includes(id)] *)
Definition includes (id : string) (l : list string) : bool :=
  existsb (String.eqb id) l.

(** The two reductions of the first effect. *)
Definition sumDuration (selected : list string) : Z :=
  fold_left (fun total serviceId =>
               total + match findService serviceId with
                       | Some service => Service.durationMinutes service
                       | None => 0
                       end)
            selected 0.

Definition sumPrice (selected : list string) : Q :=
  fold_left (fun total serviceId =>
               (total + match findService serviceId with
                        | Some service => Js.Number_decimal (Service.price service)
                        | None => 0
                        end)%Q)
            selected 0%Q.

(** First effect: recompute the totals from the selection. *)
Definition totalsEffect (st : State) : State :=
  set_totals (sumDuration (selectedServices st))
             (sumPrice (selectedServices st)) st.

(** Second effect: [if (watchedDate && totalDuration > 0)] regenerate. *)
Definition slotsEffect (now : Date) (st : State) : State :=
  match watchedDate st with
  | Some date =>
      if 0 <? totalDuration st
      then set_availableSlots
             (SlotGenerator.generateTimeSlots tz now date (totalDuration st)) st
      else st
  | None => st
  end.

(** [handleServiceToggle(serviceId, checked)] *)
Definition handleServiceToggle (serviceId : string) (checked : bool)
           (st : State) : State :=
  let newSelection :=
    if checked then (selectedServices st ++ [serviceId])%list
    else filter (fun id => negb (String.eqb id serviceId)) (selectedServices st) in
  set_selectedServices newSelection st.

(** [handleNextStep()] *)
Definition handleNextStep (st : State) : State :=
  if (currentStep st =? 1) && (Z.of_nat (List.length (selectedServices st)) =? 0)
  then st                                   (* setError; return *)
  else if currentStep st <? 4
       then set_currentStep (currentStep st + 1) st
       else st.

(** [handlePrevStep()] *)
Definition handlePrevStep (st : State) : State :=
  if 1 <? currentStep st then set_currentStep (currentStep st - 1) st else st.

(** What the user can do; each control is rendered on one step only. *)
Inductive Event : Type :=
| ClickService (serviceId : string)      (* step 1: a service card *)
| ClickNext                              (* steps 1 to 3 *)
| ClickPrev
| ChooseStylist (stylistId : string)     (* step 2: "" is no preference *)
| ChooseDate (date : option Date).       (* step 3: the calendar *)

Definition handle (ev : Event) (st : State) : State :=
  match ev with
  | ClickService serviceId =>
      if currentStep st =? 1
      then handleServiceToggle serviceId
             (negb (includes serviceId (selectedServices st))) st
      else st
  | ClickNext => if currentStep st <? 4 then handleNextStep st else st
  | ClickPrev => handlePrevStep st
  | ChooseStylist stylistId =>
      if currentStep st =? 2 then set_watchedStylist stylistId st else st
  | ChooseDate date =>
      if currentStep st =? 3 then set_watchedDate date st else st
  end.

(** Whether a dependency of the second effect changed.  A date chosen in
    the calendar is a new object, hence always a change. *)
Definition slotDepsChanged (ev : Event) (before after : State) : bool :=
  match ev with
  | ChooseDate _ => currentStep before =? 3
  | _ => negb (totalDuration before =? totalDuration after)
         || negb (String.eqb (watchedStylist before) (watchedStylist after))
  end.

(** One event: the handler, then the effects whose dependencies changed.
    [now] is the clock when the second effect runs. *)
Definition step (now : Date) (ev : Event) (st : State) : State :=
  let st1 := totalsEffect (handle ev st) in
  if slotDepsChanged ev st st1 then slotsEffect now st1 else st1.

Fixpoint run (evs : list (Date * Event)) (st : State) : State :=
  match evs with
  | [] => st
  | (now, ev) :: rest => run rest (step now ev st)
  end.

(** The money fields of the [bookingData] built by [handleFormSubmit]. *)
Record BookingMoney : Type := mkMoney {
  totalAmount : Q;
  depositAmount : Q;
  requiresPayment : bool
}.

Definition handleFormSubmit (st : State) : BookingMoney :=
  let requiresDeposit :=
    existsb (fun serviceId =>
               match findService serviceId with
               | Some service => Js.truthy (Service.requiresDeposit service)
               | None => false
               end)
            (selectedServices st) in
  let depositAmount :=
    if requiresDeposit
    then (Js.Math_round (totalPrice st * (2 # 10) * 100) / 100)%Q
    else 0%Q in
  mkMoney (totalPrice st) depositAmount requiresDeposit.
End Component.

End BookingForm.

(* ================================================================== *)
(** ** The storage layer: class DatabaseStorage *)

Module Storage.
Import JsDate Schema.

(** The tables the operations below read or write. *)
Record Db : Type := mkDb {
  services : list Service.t;
  stylists : list Stylist.t;
  appointments : list Appointment.t;
  reviews : list Review.t
}.

(** [db.update(table).set(..).where(..)] on the rows of a table, and the
    rows its [.returning()] gives back.  The updated row is left where it
    was; a later [select] without [orderBy] may return it elsewhere. *)
Definition updateWhere {A} (cond : A -> bool) (set : A -> A) (rows : list A)
  : list A :=
  map (fun row => if cond row then set row else row) rows.

Definition returning {A} (cond : A -> bool) (set : A -> A) (rows : list A)
  : list A :=
  map set (filter cond rows).

(** [deleteService(id)] *)
Definition deleteService (id : string) (db : Db) : Db :=
  mkDb (updateWhere (fun s => String.eqb (Service.id s) id)
                    (Service.set_isActive (Some false)) (services db))
       (stylists db) (appointments db) (reviews db).

(** [deleteStylist(id)] *)
Definition deleteStylist (id : string) (db : Db) : Db :=
  mkDb (services db)
       (updateWhere (fun s => String.eqb (Stylist.id s) id)
                    (Stylist.set_isActive (Some false)) (stylists db))
       (appointments db) (reviews db).

Definition orElse {A} (o : option A) (old : A) : A :=
  match o with Some v => v | None => old end.

(** [.set({ ...appointment, updatedAt })] applied to one row. *)
Definition setAppointment (p : Appointment.partial) (updatedAt : Date)
           (a : Appointment.t) : Appointment.t :=
  Appointment.mk
    (Appointment.id a)
    (orElse (Appointment.p_salonId p) (Appointment.salonId a))
    (orElse (Appointment.p_clientId p) (Appointment.clientId a))
    (orElse (Appointment.p_stylistId p) (Appointment.stylistId a))
    (orElse (Appointment.p_serviceIds p) (Appointment.serviceIds a))
    (orElse (Appointment.p_startTime p) (Appointment.startTime a))
    (orElse (Appointment.p_endTime p) (Appointment.endTime a))
    (orElse (Appointment.p_status p) (Appointment.status a))
    (orElse (Appointment.p_channel p) (Appointment.channel a))
    (orElse (Appointment.p_totalAmount p) (Appointment.totalAmount a))
    (orElse (Appointment.p_depositAmount p) (Appointment.depositAmount a))
    (orElse (Appointment.p_paymentStatus p) (Appointment.paymentStatus a))
    (orElse (Appointment.p_stripePaymentIntentId p)
            (Appointment.stripePaymentIntentId a))
    (orElse (Appointment.p_notes p) (Appointment.notes a))
    (orElse (Appointment.p_cancelledAt p) (Appointment.cancelledAt a))
    (orElse (Appointment.p_cancellationReason p)
            (Appointment.cancellationReason a))
    (orElse (Appointment.p_remindersSent p) (Appointment.remindersSent a))
    (Appointment.createdAt a)
    (Some updatedAt).

Definition withAppointments (rows : list Appointment.t) (db : Db) : Db :=
  mkDb (services db) (stylists db) rows (reviews db).

Definition hasId (id : string) (a : Appointment.t) : bool :=
  String.eqb (Appointment.id a) id.

(** [updateAppointment(id, appointment)]: the new tables and the row
    returned ([None] when no row has this id). *)
Definition updateAppointment (now : Date) (id : string)
           (appointment : Appointment.partial) (db : Db)
  : Db * option Appointment.t :=
  let set := setAppointment appointment now in
  (withAppointments (updateWhere (hasId id) set (appointments db)) db,
   hd_error (returning (hasId id) set (appointments db))).

(** The columns [cancelAppointment] sets besides [updatedAt]. *)
Definition cancellation (now : Date) (reason : string) : Appointment.partial :=
  Appointment.mkPartial None None None None None None
    (Some "cancelled") None None None None None None
    (Some (Some now)) (Some (Some reason)) None.

(** [cancelAppointment(id, reason)] *)
Definition cancelAppointment (now : Date) (id : string) (reason : string)
           (db : Db) : Db * option Appointment.t :=
  let set := setAppointment (cancellation now reason) now in
  (withAppointments (updateWhere (hasId id) set (appointments db)) db,
   hd_error (returning (hasId id) set (appointments db))).

(** [getAppointment(id)] *)
Definition getAppointment (id : string) (db : Db) : option Appointment.t :=
  hd_error (filter (hasId id) (appointments db)).

(** The two routes on an appointment: PATCH /api/appointments/:id passes
    the request body on as it is (the body is taken at the type the storage
    method declares for it); POST /api/appointments/:id/cancel passes
    [reason || "Cancelled by client"]. *)
Definition patchAppointmentRoute (now : Date) (id : string)
           (body : Appointment.partial) (db : Db) : Db * option Appointment.t :=
  updateAppointment now id body db.

Definition cancelAppointmentRoute (now : Date) (id : string)
           (reason : option string) (db : Db) : Db * option Appointment.t :=
  cancelAppointment now id (Js.orString reason "Cancelled by client") db.

(** *** Analytics *)

Record TopService : Type := mkTop { serviceName : string; count : Z }.

Record Metrics : Type := mkMetrics {
  totalAppointments : Z;
  totalRevenue : PrimFloat.float;
  noShows : Z;
  completedAppointments : Z;
  averageRating : option Q;
  topServices : list TopService
}.

Definition len {A} (l : list A) : Z := Z.of_nat (List.length l).

Definition hasStatus (s : string) (apt : Appointment.t) : bool :=
  String.eqb (Appointment.status apt) s.

(** The [where] clause of the appointment query. *)
Definition inRange (salonId : string) (startDate endDate : Date)
           (apt : Appointment.t) : bool :=
  String.eqb (Appointment.salonId apt) salonId
  && (startDate <=? Appointment.startTime apt)
  && (Appointment.startTime apt <=? endDate).

(** [serviceCount.set(name, (serviceCount.get(name) || 0) + 1)] *)
Definition countService (serviceMap : Js.Map.t string)
           (serviceCount : Js.Map.t Z) (serviceId : string) : Js.Map.t Z :=
  let serviceName := Js.orString (Js.Map.get serviceId serviceMap) "Unknown Service" in
  Js.Map.set serviceName
             (orElse (Js.Map.get serviceName serviceCount) 0 + 1)
             serviceCount.

(** [getSalonMetrics(salonId, startDate, endDate)] *)
Definition getSalonMetrics (salonId : string) (startDate endDate : Date)
           (db : Db) : Metrics :=
  let appointmentsInRange :=
    filter (inRange salonId startDate endDate) (appointments db) in
  let totalAppointments := len appointmentsInRange in
  let noShows := len (filter (hasStatus "no_show") appointmentsInRange) in
  let completedAppointments :=
    len (filter (hasStatus "completed") appointmentsInRange) in
  let totalRevenue :=
    fold_left (fun sum apt =>
                 PrimFloat.add sum (Js.Number_double (Appointment.totalAmount apt)))
              (filter (hasStatus "completed") appointmentsInRange)
              PrimFloat.zero in
  let salonReviews :=
    filter (fun r => String.eqb (Review.salonId r) salonId) (reviews db) in
  let averageRating :=
    if 0 <? len salonReviews
    then Js.div (fold_left (fun sum review =>
                              (sum + inject_Z (Review.rating review))%Q)
                           salonReviews 0%Q)
                (inject_Z (len salonReviews))
    else Some 0%Q in
  let salonServices :=
    filter (fun s => String.eqb (Service.salonId s) salonId) (services db) in
  let serviceMap :=
    Js.Map.ofEntries (map (fun s => (Service.id s, Service.name s)) salonServices) in
  let serviceCount :=
    fold_left (fun m apt =>
                 fold_left (countService serviceMap) (Appointment.serviceIds apt) m)
              appointmentsInRange Js.Map.empty in
  let topServices :=
    firstn 5
      (Js.sort (fun a b => count b - count a)
         (map (fun e => mkTop (fst e) (snd e)) (Js.Map.entries serviceCount))) in
  mkMetrics totalAppointments totalRevenue noShows completedAppointments
            averageRating topServices.

End Storage.

(* ================================================================== *)
(** ** The appointments page: the buttons of the detail dialog *)

Module AppointmentsPage.

(** The statuses the dialog offers to move an appointment to: "Confirmer"
    is rendered for a pending appointment, "Terminer" for a confirmed one,
    "Annuler" unless the status is cancelled or completed. *)
Definition offeredStatuses (status : string) : list string :=
  ((if String.eqb status "pending" then ["confirmed"] else [])
   ++ (if String.eqb status "confirmed" then ["completed"] else [])
   ++ (if negb (existsb (String.eqb status) ["cancelled"; "completed"])
       then ["cancelled"] else []))%list.

End AppointmentsPage.

(* ================================================================== *)
(** ** Vocabulary of the statements *)

Module Spec.
Import JsDate Schema.

(** [s'] is [s] with its active flag off and nothing else changed. *)
Definition deactivatedService (s s' : Service.t) : Prop :=
  Service.id s' = Service.id s /\
  Service.salonId s' = Service.salonId s /\
  Service.name s' = Service.name s /\
  Service.description s' = Service.description s /\
  Service.durationMinutes s' = Service.durationMinutes s /\
  Service.price s' = Service.price s /\
  Service.tags s' = Service.tags s /\
  Service.requiresDeposit s' = Service.requiresDeposit s /\
  Service.bufferBefore s' = Service.bufferBefore s /\
  Service.bufferAfter s' = Service.bufferAfter s /\
  Service.processingTime s' = Service.processingTime s /\
  Service.createdAt s' = Service.createdAt s /\
  Service.isActive s' = Some false.

Definition deactivatedStylist (s s' : Stylist.t) : Prop :=
  Stylist.id s' = Stylist.id s /\
  Stylist.salonId s' = Stylist.salonId s /\
  Stylist.firstName s' = Stylist.firstName s /\
  Stylist.lastName s' = Stylist.lastName s /\
  Stylist.email s' = Stylist.email s /\
  Stylist.phone s' = Stylist.phone s /\
  Stylist.photoUrl s' = Stylist.photoUrl s /\
  Stylist.specialties s' = Stylist.specialties s /\
  Stylist.schedule s' = Stylist.schedule s /\
  Stylist.vacations s' = Stylist.vacations s /\
  Stylist.createdAt s' = Stylist.createdAt s /\
  Stylist.isActive s' = Some false.

(** [a'] agrees with [a] on every column other than the status, the two
    cancellation columns and [updatedAt]. *)
Definition sameBooking (a a' : Appointment.t) : Prop :=
  Appointment.id a' = Appointment.id a /\
  Appointment.salonId a' = Appointment.salonId a /\
  Appointment.clientId a' = Appointment.clientId a /\
  Appointment.stylistId a' = Appointment.stylistId a /\
  Appointment.serviceIds a' = Appointment.serviceIds a /\
  Appointment.startTime a' = Appointment.startTime a /\
  Appointment.endTime a' = Appointment.endTime a /\
  Appointment.channel a' = Appointment.channel a /\
  Appointment.totalAmount a' = Appointment.totalAmount a /\
  Appointment.depositAmount a' = Appointment.depositAmount a /\
  Appointment.paymentStatus a' = Appointment.paymentStatus a /\
  Appointment.stripePaymentIntentId a' = Appointment.stripePaymentIntentId a /\
  Appointment.notes a' = Appointment.notes a /\
  Appointment.remindersSent a' = Appointment.remindersSent a /\
  Appointment.createdAt a' = Appointment.createdAt a.

(** The record a cancellation at [now] with [reason] leaves. *)
Definition cancelledAs (now : Date) (reason : string) (a a' : Appointment.t)
  : Prop :=
  sameBooking a a' /\
  Appointment.status a' = "cancelled" /\
  Appointment.cancelledAt a' = Some now /\
  Appointment.cancellationReason a' = Some reason /\
  Appointment.updatedAt a' = Some now.

(** The appointment with another status. *)
Definition withStatus (s : string) (a : Appointment.t) : Appointment.t :=
  Appointment.mk
    (Appointment.id a) (Appointment.salonId a) (Appointment.clientId a)
    (Appointment.stylistId a) (Appointment.serviceIds a)
    (Appointment.startTime a) (Appointment.endTime a) s
    (Appointment.channel a) (Appointment.totalAmount a)
    (Appointment.depositAmount a) (Appointment.paymentStatus a)
    (Appointment.stripePaymentIntentId a) (Appointment.notes a)
    (Appointment.cancelledAt a) (Appointment.cancellationReason a)
    (Appointment.remindersSent a) (Appointment.createdAt a)
    (Appointment.updatedAt a).

(** The tables with the status of every appointment replaced. *)
Definition relabel (f : Appointment.t -> string) (db : Storage.Db) : Storage.Db :=
  Storage.mkDb (Storage.services db) (Storage.stylists db)
               (map (fun a => withStatus (f a) a) (Storage.appointments db))
               (Storage.reviews db).

(** The sum of a list of amounts. *)
Definition sumQ (l : list Q) : Q := fold_right Qplus 0%Q l.

(** The appointments that count as revenue: those of the salon that start
    in the range and are completed, in the order of the table. *)
Definition revenueRows (salonId : string) (startDate endDate : Date)
           (db : Storage.Db) : list Appointment.t :=
  filter (fun a => Storage.inRange salonId startDate endDate a
                   && String.eqb (Appointment.status a) "completed")
         (Storage.appointments db).

(** The amounts of a list of appointments added up from the left, each
    addition rounded to a double. *)
Definition addUp (rows : list Appointment.t) : PrimFloat.float :=
  fold_left (fun sum a =>
               PrimFloat.add sum (Js.Number_double (Appointment.totalAmount a)))
            rows PrimFloat.zero.

(** The ratings of the reviews of a salon, and the mean of a list of
    ratings. *)
Definition salonRatings (salonId : string) (db : Storage.Db) : list Z :=
  map Review.rating
      (filter (fun r => String.eqb (Review.salonId r) salonId) (Storage.reviews db)).

Definition mean (ratings : list Z) : Q :=
  (inject_Z (fold_right Z.add 0%Z ratings)
   / inject_Z (Z.of_nat (List.length ratings)))%Q.

(** The name under which getSalonMetrics counts a service id: the name the
    salon's service of that id has now, or "Unknown Service". *)
Definition countedName (salonId : string) (db : Storage.Db)
           (serviceId : string) : string :=
  Js.orString
    (Js.Map.get serviceId
       (Js.Map.ofEntries
          (map (fun s => (Service.id s, Service.name s))
               (filter (fun s => String.eqb (Service.salonId s) salonId)
                       (Storage.services db)))))
    "Unknown Service".

(** One name per service id of every appointment of the salon that starts
    in the range, whatever its status. *)
Definition countedNames (salonId : string) (startDate endDate : Date)
           (db : Storage.Db) : list string :=
  flat_map (fun a => map (countedName salonId db) (Appointment.serviceIds a))
           (filter (Storage.inRange salonId startDate endDate)
                   (Storage.appointments db)).

Definition occurrences (name : string) (names : list string) : Z :=
  Z.of_nat (count_occ string_dec names name).

(** The comparison getSalonMetrics sorts with, and the order it yields. *)
Definition byCount (a b : Storage.TopService) : Z :=
  Storage.count b - Storage.count a.

Definition descending (a b : Storage.TopService) : Prop :=
  Storage.count b <= Storage.count a.

End Spec.

(* ================================================================== *)
(** ** booking-form.tsx: the times built by handleFormSubmit *)

Module FormSubmit.
Import JsDate.

(** [s.split(sep)] for a separator of one character. *)
Fixpoint splitOn (sep : ascii) (s : string) : list string :=
  match s with
  | EmptyString => [EmptyString]
  | String c rest =>
      if Ascii.eqb c sep then EmptyString :: splitOn sep rest
      else match splitOn sep rest with
           | w :: ws => String c w :: ws
           | [] => [String c EmptyString]
           end
  end.

Definition digitValue (c : ascii) : option Z :=
  let n := Z.of_nat (nat_of_ascii c) in
  if (48 <=? n) && (n <=? 57) then Some (n - 48) else None.

Fixpoint digitsValue (acc : Z) (s : string) : option Z :=
  match s with
  | EmptyString => Some acc
  | String c rest =>
      match digitValue c with
      | Some d => digitsValue (acc * 10 + d) rest
      | None => None
      end
  end.

(** [Number(s)] on the strings made of decimal digits only (the empty string
    gives 0).  [None]: the string is outside this fragment. *)
Definition Number_digits (s : string) : option Z := digitsValue 0 s.

(** The first lines of handleFormSubmit:
    [[hours, minutes] = data.timeSlot.split(':').map(Number)], then
    [startTime] by [setHours(hours, minutes, 0, 0)] on a copy of the date and
    [endTime = addMinutes(startTime, totalDuration)]. *)
Definition submittedTimes (tz : Z) (selectedDate : Date) (timeSlot : string)
           (totalDuration : Z) : option (Date * Date) :=
  match map Number_digits (splitOn ":" timeSlot) with
  | Some hours :: Some minutes :: _ =>
      let startTime := setHours tz selectedDate hours minutes 0 0 in
      let endTime := addMinutes startTime totalDuration in
      Some (startTime, endTime)
  | _ => None
  end.

End FormSubmit.

(* ================================================================== *)
(** ** The catalog queries and the public routes *)

Module Catalog.
Import Schema.





End Catalog.

(* ================================================================== *)
(** ** Creating and paying an appointment *)

Module Lifecycle.
Import JsDate Schema.




(** The part of a Stripe event the webhook reads:
    [event.type], [event.data.object.id],
    [event.data.object.metadata.appointmentId]. *)
Record StripeEvent : Type := mkEvent {
  eventType : string;
  paymentIntentId : string;
  metadataAppointmentId : option string
}.

(** The update the webhook passes to updateAppointment. *)
Definition paid (paymentIntentId : string) : Appointment.partial :=
  Appointment.mkPartial None None None None None None None None None None
    (Some (Some "paid")) (Some (Some paymentIntentId)) None None None None.

(** POST /api/webhooks/stripe *)
Definition stripeWebhook (now : Date) (event : StripeEvent) (db : Storage.Db)
  : Storage.Db :=
  if String.eqb (eventType event) "payment_intent.succeeded" then
    match metadataAppointmentId event with
    | Some appointmentId =>
        if String.eqb appointmentId "" then db
        else fst (Storage.updateAppointment now appointmentId
                    (paid (paymentIntentId event)) db)
    | None => db
    end
  else db.

End Lifecycle.

(* ================================================================== *)
(** ** The reports page and the dashboard: figures derived from the metrics *)

Module Reports.

(** The completion rate shown:
    [completed && total ? Math.round(completed / total * 100) : 0]. *)
Definition completionRate (m : Storage.Metrics) : Q :=
  if negb (Storage.completedAppointments m =? 0)
     && negb (Storage.totalAppointments m =? 0)
  then Js.Math_round
         (inject_Z (Storage.completedAppointments m)
          / inject_Z (Storage.totalAppointments m) * 100)
  else 0%Q.

(** The width of the bar of a top service, in percent:
    [service.count / (metrics.totalAppointments || 1) * 100]. *)
Definition barWidth (m : Storage.Metrics) (service : Storage.TopService) : Q :=
  (inject_Z (Storage.count service)
   / inject_Z (if Storage.totalAppointments m =? 0 then 1
               else Storage.totalAppointments m)
   * 100)%Q.

End Reports.

(* ================================================================== *)
(** ** Vocabulary of the further statements *)

Module Grid.
Import JsDate.

(** The half-hour grid the generator scans, as (hour, minute). *)
Definition cells : list (Z * Z) :=
  flat_map (fun hour => map (pair hour) [0; 30]) [9; 10; 11; 12; 13; 14; 15; 16; 17].

(** The label of a cell: "HH:mm". *)
Definition label (cell : Z * Z) : string :=
  twoDigits (fst cell) ++ ":" ++ twoDigits (snd cell).

Definition labels : list string :=
  ["09:00"; "09:30"; "10:00"; "10:30"; "11:00"; "11:30"; "12:00"; "12:30";
   "13:00"; "13:30"; "14:00"; "14:30"; "15:00"; "15:30"; "16:00"; "16:30";
   "17:00"; "17:30"].

End Grid.

Module FirstSeen.

(** The distinct names of a list, in the order of their first occurrence. *)
Fixpoint firstSeen (names : list string) : list string :=
  match names with
  | [] => []
  | n :: rest => n :: filter (fun x => negb (String.eqb x n)) (firstSeen rest)
  end.

(** The entries counted exactly [c] times. *)
Definition countedTimes (c : Z) (e : Storage.TopService) : bool :=
  Storage.count e =? c.

End FirstSeen.

(* ================================================================== *)
(** * Properties *)

Import JsDate Schema SlotGenerator.

(** ** The slot generator *)

Section SlotGeneratorFacts.

Lemma map_flat_map_opt {A B C} (f : B -> C) (g : A -> list B) (l : list A) :
  map f (flat_map g l) = flat_map (fun x => map f (g x)) l.
Proof.
  induction l as [|x l IH]; simpl; [reflexivity|].
  now rewrite map_app, IH.
Qed.

(** The strings returned are the formatted start times, in order. *)
Lemma generateTimeSlots_starts tz now date duration :
  generateTimeSlots tz now date duration
  = map (format_HHmm tz) (generatedSlotStarts tz now date duration).
Proof.
  unfold generateTimeSlots, generatedSlotStarts.
  rewrite map_flat_map_opt. apply flat_map_ext; intros hour.
  rewrite map_flat_map_opt. apply flat_map_ext; intros minute.
  unfold slotAt.
  destruct (getHours tz _ <=? endHour); [|reflexivity].
  destruct (addMinutes now 120 <? _); reflexivity.
Qed.

Lemma hours_scanned : forRange startHour endHour 1 = [9; 10; 11; 12; 13; 14; 15; 16; 17].
Proof. reflexivity. Qed.

Lemma minutes_scanned : forRange 0 60 slotInterval = [0; 30].
Proof. reflexivity. Qed.

(** A start time is generated exactly when the loop body pushes it at some
    hour of 9..17 and minute of 0, 30. *)
Lemma In_generatedSlotStarts tz now date duration t :
  In t (generatedSlotStarts tz now date duration) <->
  exists hour minute,
    9 <= hour <= 17 /\ (minute = 0 \/ minute = 30) /\
    slotAt tz now date duration hour minute = Some t.
Proof.
  unfold generatedSlotStarts. rewrite hours_scanned, minutes_scanned.
  rewrite in_flat_map. split.
  - intros (hour & Hh & Hin). apply in_flat_map in Hin.
    destruct Hin as (minute & Hm & Hin).
    exists hour, minute. repeat split.
    + simpl in Hh. lia.
    + simpl in Hh. lia.
    + simpl in Hm. lia.
    + destruct (slotAt tz now date duration hour minute); simpl in Hin;
        [destruct Hin as [->|[]]; reflexivity | contradiction].
  - intros (hour & minute & Hh & Hm & Hs).
    exists hour. split; [simpl; lia|].
    apply in_flat_map. exists minute. split; [simpl; lia|].
    rewrite Hs. now left.
Qed.

Lemma minuteOfDay_setHours tz date h m :
  0 <= h * 60 + m < 1440 ->
  minuteOfDay tz (setHours tz date h m 0 0) = h * 60 + m.
Proof.
  intros Hr. unfold minuteOfDay, setHours, localTime, msPerDay, msPerHour, msPerMinute.
  generalize ((date + tz * 60000) / 86400000); intros day.
  replace (day * 86400000 + h * 3600000 + m * 60000 + 0 * 1000 + 0
           - tz * 60000 + tz * 60000)
    with ((h * 60 + m) * 60000 + day * 86400000) by lia.
  rewrite Z.mod_add by lia.
  rewrite Z.mod_small by lia.
  apply Z.div_mul; lia.
Qed.

(** What the two tests of the loop body guarantee for every slot pushed:
    it starts between 09:00 and 17:30 local time, the hour in which it ends
    is at most 18, and it starts strictly after now + 120 minutes. *)
Lemma generated_slot_bounds tz now date duration t :
  In t (generatedSlotStarts tz now date duration) ->
  9 * 60 <= minuteOfDay tz t <= 17 * 60 + 30 /\
  getHours tz (addMinutes t duration) <= endHour /\
  addMinutes now 120 < t.
Proof.
  rewrite In_generatedSlotStarts. intros (hour & minute & Hh & Hm & Hs).
  unfold slotAt in Hs.
  destruct (getHours tz (addMinutes (setHours tz date hour minute 0 0) duration)
            <=? endHour) eqn:He; [|discriminate].
  destruct (addMinutes now 120 <? setHours tz date hour minute 0 0) eqn:Hl;
    [|discriminate].
  injection Hs as <-.
  rewrite minuteOfDay_setHours by lia.
  apply Z.leb_le in He. apply Z.ltb_lt in Hl.
  repeat split; try assumption; lia.
Qed.

End SlotGeneratorFacts.

(** The scenario of a booking for the same day, two hours before opening. *)
Example generateTimeSlots_same_day :
  generateTimeSlots 0 (utc 2025 1 16 7 0) (utc 2025 1 16 0 0) 60
  = ["09:30"; "10:00"; "10:30"; "11:00"; "11:30"; "12:00"; "12:30"; "13:00";
     "13:30"; "14:00"; "14:30"; "15:00"; "15:30"; "16:00"; "16:30"; "17:00";
     "17:30"].
Proof. reflexivity. Qed.

(** C1 (the code at a failing input).  With the clock at 2025-01-01T07:00Z,
    local time UTC, the date 2025-01-16 and a duration of 60 minutes,
    generateTimeSlots returns "17:30" as its last slot: it was pushed for the
    start time 17:30, and 17:30 + 60 minutes is 18:30, half an hour past the
    closing time 18:00.  The test on the end of the slot compares the hour
    only. *)
Theorem C1_slot_ends_after_closing :
  let now := utc 2025 1 1 7 0 in
  let date := utc 2025 1 16 0 0 in
  let slotStart := setHours 0 date 17 30 0 0 in
  last (generateTimeSlots 0 now date 60) "" = "17:30" /\
  In slotStart (generatedSlotStarts 0 now date 60) /\
  format_HHmm 0 slotStart = "17:30" /\
  addMinutes slotStart 60 = setHours 0 date 18 30 0 0 /\
  setHours 0 date SlotGenerator.endHour 0 0 0 < addMinutes slotStart 60.
Proof.
  cbv zeta. repeat split; try reflexivity.
  vm_compute. do 17 right. now left.
Qed.

(** C2 (counterexample).  Date 2025-01-16, duration 60, now =
    2025-01-16T07:00:00Z, local time UTC: the first slot returned is not
    "09:00". *)
Lemma C2_first_slot_is_not_0900 :
  hd_error (generateTimeSlots 0 (utc 2025 1 16 7 0) (utc 2025 1 16 0 0) 60)
  <> Some "09:00".
Proof. vm_compute. discriminate. Qed.

(** C2 (amended).  In that scenario the first slot returned is "09:30": the
    slot starting at 09:00, which is exactly now + 120 minutes, is left out.
    For every time zone, clock, date and duration, the strings returned are
    the formatted start times of the slots pushed, and every such start time
    is strictly later than now + 120 minutes. *)
Theorem C2_slots_strictly_after_lead_time :
  hd_error (generateTimeSlots 0 (utc 2025 1 16 7 0) (utc 2025 1 16 0 0) 60)
    = Some "09:30" /\
  ~ In (setHours 0 (utc 2025 1 16 0 0) 9 0 0 0)
       (generatedSlotStarts 0 (utc 2025 1 16 7 0) (utc 2025 1 16 0 0) 60) /\
  setHours 0 (utc 2025 1 16 0 0) 9 0 0 0 = addMinutes (utc 2025 1 16 7 0) 120 /\
  forall tz now date duration,
    generateTimeSlots tz now date duration
      = map (format_HHmm tz) (generatedSlotStarts tz now date duration) /\
    forall t, In t (generatedSlotStarts tz now date duration) ->
              addMinutes now 120 < t.
Proof.
  split; [reflexivity|]. split.
  - intros H. apply generated_slot_bounds in H. destruct H as (_ & _ & H).
    vm_compute in H. discriminate.
  - split; [reflexivity|]. intros tz now date duration. split.
    + apply generateTimeSlots_starts.
    + intros t Ht. now apply generated_slot_bounds in Ht.
Qed.

Lemma C2_slots_strictly_after_lead_time_witness :
  addMinutes (utc 2025 1 16 7 0) 120 < setHours 0 (utc 2025 1 16 0 0) 9 30 0 0.
Proof.
  apply (proj2 (proj2 (proj2 (proj2 C2_slots_strictly_after_lead_time))
                 0 (utc 2025 1 16 7 0) (utc 2025 1 16 0 0) 60)).
  vm_compute. now left.
Defined.

(* ================================================================== *)
(** ** The booking form *)

Section BookingFormFacts.
Import BookingForm.
Variable tz : Z.
Variable services : list Service.t.


(** Neither effect touches the step or the selection. *)
Lemma step_currentStep now ev st :
  currentStep (step tz services now ev st) = currentStep (handle ev st).
Proof.
  unfold BookingForm.step, slotsEffect, totalsEffect.
  destruct (slotDepsChanged _ _ _); [|reflexivity]. simpl.
  destruct (watchedDate (handle ev st)); [|reflexivity].
  destruct (0 <? _); reflexivity.
Qed.

Lemma step_selectedServices now ev st :
  selectedServices (step tz services now ev st) = selectedServices (handle ev st).
Proof.
  unfold BookingForm.step, slotsEffect, totalsEffect.
  destruct (slotDepsChanged _ _ _); [|reflexivity]. simpl.
  destruct (watchedDate (handle ev st)); [|reflexivity].
  destruct (0 <? _); reflexivity.
Qed.

(** After every event the totals are those of the current selection. *)
Lemma step_totals now ev st :
  totalDuration (step tz services now ev st)
    = sumDuration services (selectedServices (step tz services now ev st)) /\
  totalPrice (step tz services now ev st)
    = sumPrice services (selectedServices (step tz services now ev st)).
Proof.
  rewrite step_selectedServices.
  unfold BookingForm.step, slotsEffect, totalsEffect.
  destruct (slotDepsChanged _ _ _); [|split; reflexivity]. simpl.
  destruct (watchedDate (handle ev st)); [|split; reflexivity].
  destruct (0 <? _); split; reflexivity.
Qed.

(** With a total duration of zero an event leaves the slots as they were. *)
Lemma step_keeps_slots now ev st :
  totalDuration (step tz services now ev st) = 0 ->
  availableSlots (step tz services now ev st) = availableSlots st.
Proof.
  unfold BookingForm.step.
  assert (Hh : availableSlots (totalsEffect services (handle ev st))
               = availableSlots st).
  { unfold totalsEffect, handle, handleServiceToggle, handleNextStep, handlePrevStep.
    destruct ev; simpl;
      repeat match goal with
             | |- context [if ?c then _ else _] => destruct c; simpl
             end; reflexivity. }
  destruct (slotDepsChanged _ _ _); [|intros _; exact Hh].
  unfold slotsEffect.
  destruct (watchedDate _); [|intros _; exact Hh].
  destruct (0 <? totalDuration _) eqn:Hpos; [|intros _; exact Hh].
  intros H0. apply Z.ltb_lt in Hpos.
  change (totalDuration (set_availableSlots ?v ?s)) with (totalDuration s) in H0.
  lia.
Qed.

Lemma handle_step_invariant ev st :
  1 <= currentStep st <= 4 ->
  (selectedServices st = [] -> currentStep st = 1) ->
  1 <= currentStep (handle ev st) <= 4 /\
  (selectedServices (handle ev st) = [] -> currentStep (handle ev st) = 1).
Proof.
  intros Hr Hs.
  destruct ev; unfold handle, handleServiceToggle, handleNextStep, handlePrevStep.
  - destruct (currentStep st =? 1) eqn:E1; [|auto].
    apply Z.eqb_eq in E1. simpl. rewrite E1. split; [lia|reflexivity].
  - destruct (currentStep st <? 4) eqn:E4; [|auto].
    apply Z.ltb_lt in E4.
    destruct (currentStep st =? 1) eqn:E1; simpl.
    + destruct (selectedServices st) as [|x l] eqn:El; simpl; [auto|].
      rewrite El. split; [lia|discriminate].
    + apply Z.eqb_neq in E1. split; [lia|]. intros H. apply Hs in H. lia.
  - destruct (1 <? currentStep st) eqn:E1; [|auto].
    apply Z.ltb_lt in E1. simpl. split; [lia|]. intros H. apply Hs in H. lia.
  - destruct (currentStep st =? 2); auto.
  - destruct (currentStep st =? 3); auto.
Qed.

Lemma run_step_invariant evs : forall st,
  1 <= currentStep st <= 4 ->
  (selectedServices st = [] -> currentStep st = 1) ->
  1 <= currentStep (run tz services evs st) <= 4 /\
  (selectedServices (run tz services evs st) = [] -> currentStep (run tz services evs st) = 1).
Proof.
  induction evs as [|[now ev] evs IH]; intros st Hr Hs; simpl; [auto|].
  destruct (handle_step_invariant ev st Hr Hs) as [Hr' Hs'].
  apply IH; rewrite ?step_currentStep, ?step_selectedServices; assumption.
Qed.

Lemma run_keeps_no_slots evs : forall st,
  availableSlots st = [] ->
  (forall n, totalDuration (run tz services (firstn n evs) st) = 0) ->
  availableSlots (run tz services evs st) = [].
Proof.
  induction evs as [|[now ev] evs IH]; intros st Ha Hz; simpl; [assumption|].
  apply IH.
  - rewrite step_keeps_slots; [assumption|]. exact (Hz 1%nat).
  - intros n. exact (Hz (S n)).
Qed.

Lemma run_totals evs : forall st,
  totalDuration st = sumDuration services (selectedServices st) ->
  totalPrice st = sumPrice services (selectedServices st) ->
  totalDuration (run tz services evs st) = sumDuration services (selectedServices (run tz services evs st)) /\
  totalPrice (run tz services evs st) = sumPrice services (selectedServices (run tz services evs st)).
Proof.
  induction evs as [|[now ev] evs IH]; intros st Hd Hp; simpl; [auto|].
  apply IH; apply step_totals.
Qed.

End BookingFormFacts.

(** C3 (counterexample).  One service of 30 minutes; the user selects it,
    goes to step 3, picks 2025-01-16, goes back to step 1 and deselects it.
    No service is selected and the total duration is zero, yet the slot list
    of the form holds the eighteen slots generated before.  (generateTimeSlots
    itself, called with a duration of 0, returns these eighteen slots too.) *)
Lemma C3_zero_duration_slots_not_empty :
  let now := utc 2025 1 1 7 0 in
  let date := utc 2025 1 16 0 0 in
  let coupe := Service.mk "s1" "salon" "Coupe" None 30 2500 None (Some false)
                          None None None (Some true) None in
  let st := BookingForm.run 0 [coupe]
              [(now, BookingForm.ClickService "s1"); (now, BookingForm.ClickNext);
               (now, BookingForm.ClickNext);
               (now, BookingForm.ChooseDate (Some date));
               (now, BookingForm.ClickPrev); (now, BookingForm.ClickPrev);
               (now, BookingForm.ClickService "s1")]
              BookingForm.initial in
  BookingForm.selectedServices st = [] /\
  BookingForm.totalDuration st = 0 /\
  BookingForm.watchedDate st = Some date /\
  List.length (BookingForm.availableSlots st) = 18%nat /\
  List.length (generateTimeSlots 0 now date 0) = 18%nat.
Proof. vm_compute. repeat split. Qed.

(** C3 (amended).  In every state the form reaches, from any sequence of
    events: the step is between 1 and 4; while no service is selected the form
    is on step 1 and handleNextStep leaves it there; when the total duration
    is zero the slot effect changes nothing (no slots are generated, the list
    keeps its previous content); and if the total duration has been zero ever
    since the form was opened, the slot list is empty. *)
Theorem C3_zero_duration_generates_nothing :
  forall tz services evs,
    let st := BookingForm.run tz services evs BookingForm.initial in
    1 <= BookingForm.currentStep st <= 4 /\
    (BookingForm.selectedServices st = [] ->
       BookingForm.currentStep st = 1 /\ BookingForm.handleNextStep st = st) /\
    (forall now, BookingForm.totalDuration st = 0 ->
       BookingForm.slotsEffect tz now st = st) /\
    ((forall n, BookingForm.totalDuration
                  (BookingForm.run tz services (firstn n evs) BookingForm.initial) = 0) ->
       BookingForm.availableSlots st = []).
Proof.
  intros tz services evs st.
  destruct (run_step_invariant tz services evs BookingForm.initial) as [Hr Hs];
    [simpl; lia | reflexivity |].
  fold st in Hr, Hs. repeat split; try (apply Hr).
  - auto.
  - unfold BookingForm.handleNextStep. rewrite (Hs H), H. reflexivity.
  - intros now H0. unfold BookingForm.slotsEffect. rewrite H0.
    destruct (BookingForm.watchedDate st); reflexivity.
  - intros Hz. apply run_keeps_no_slots; [reflexivity | exact Hz].
Qed.

Lemma C3_zero_duration_generates_nothing_witness :
  let now := utc 2025 1 1 7 0 in
  let st := BookingForm.run 0 [] [(now, BookingForm.ClickNext)] BookingForm.initial in
  (BookingForm.currentStep st = 1 /\ BookingForm.handleNextStep st = st) /\
  BookingForm.slotsEffect 0 now st = st /\
  BookingForm.availableSlots st = [].
Proof.
  intros now st.
  destruct (C3_zero_duration_generates_nothing 0 [] [(now, BookingForm.ClickNext)])
    as (_ & Hblock & Hskip & Hempty).
  split; [apply Hblock; reflexivity|].
  split; [apply Hskip; reflexivity|].
  apply Hempty. intros [|[|n]]; reflexivity.
Defined.

(** ** The deposit computed at submission *)

Section DepositFacts.
Import BookingForm.

(** Math.round gives the integer within one half of its argument. *)
Lemma Math_round_nearest (x : Q) :
  exists k : Z, Js.Math_round x = inject_Z k /\
                (x - (1 # 2) < inject_Z k)%Q /\ (inject_Z k <= x + (1 # 2))%Q.
Proof.
  exists (Qfloor (x + (1 # 2))). split; [reflexivity|]. split.
  - pose proof (Qlt_floor (x + (1 # 2))) as H.
    rewrite inject_Z_plus in H. change (inject_Z 1) with 1%Q in H. lra.
  - apply Qfloor_le.
Qed.

Lemma Math_round_ge_1 (x : Q) : (1 # 2 <= x)%Q -> (1 <= Js.Math_round x)%Q.
Proof.
  intros H. unfold Js.Math_round.
  assert (Hf : (Qfloor 1 <= Qfloor (x + (1 # 2)))%Z)
    by (apply Qfloor_resp_le; lra).
  change (Qfloor 1) with 1%Z in Hf.
  change 1%Q with (inject_Z 1). now rewrite <- Zle_Qle.
Qed.

Lemma requiresDeposit_exists services selected :
  existsb (fun serviceId =>
             match findService services serviceId with
             | Some service => Js.truthy (Service.requiresDeposit service)
             | None => false
             end) selected = true <->
  exists serviceId service,
    In serviceId selected /\
    findService services serviceId = Some service /\
    Service.requiresDeposit service = Some true.
Proof.
  rewrite existsb_exists. split.
  - intros (serviceId & Hin & H). exists serviceId.
    destruct (findService services serviceId) as [service|]; [|discriminate].
    exists service. repeat split; try assumption.
    unfold Js.truthy in H.
    destruct (Service.requiresDeposit service) as [[|]|]; congruence.
  - intros (serviceId & service & Hin & Hf & Hd). exists serviceId.
    split; [assumption|]. rewrite Hf, Hd. reflexivity.
Qed.

End DepositFacts.

(** C4 (counterexample).  A single selected service that requires a deposit,
    priced 0.00 or 0.02: at submission a payment is required and the deposit
    amount is zero. *)
Lemma C4_deposit_zero_with_deposit_required :
  let conseil p := Service.mk "s1" "salon" "Conseil" None 15 p None (Some true)
                              None None None (Some true) None in
  let now := utc 2025 1 1 7 0 in
  let submitted p :=
    BookingForm.handleFormSubmit [conseil p]
      (BookingForm.run 0 [conseil p]
         [(now, BookingForm.ClickService "s1"); (now, BookingForm.ClickNext);
          (now, BookingForm.ClickNext);
          (now, BookingForm.ChooseDate (Some (utc 2025 1 16 0 0)));
          (now, BookingForm.ClickNext)]
         BookingForm.initial) in
  (BookingForm.requiresPayment (submitted 0) = true /\
   (BookingForm.totalAmount (submitted 0%Z) == 0)%Q /\
   (BookingForm.depositAmount (submitted 0%Z) == 0)%Q) /\
  (BookingForm.requiresPayment (submitted 2) = true /\
   (BookingForm.totalAmount (submitted 2%Z) == 2 # 100)%Q /\
   (BookingForm.depositAmount (submitted 2%Z) == 0)%Q).
Proof. vm_compute. repeat split. Qed.

(** C4 (amended).  At submission, in any state the form reaches:
    totalAmount is the sum of the prices of the selected services; a payment
    is required exactly when a selected service has requiresDeposit = true;
    without one the deposit is 0; with one the deposit is 20% of totalAmount
    rounded to the nearest hundredth.  So a nonzero deposit implies that a
    selected service requires a deposit, and conversely the deposit is at
    least 0.01 when one does and totalAmount is at least 0.025. *)
Theorem C4_deposit_is_rounded_fifth_of_total :
  forall tz services evs,
    let st := BookingForm.run tz services evs BookingForm.initial in
    let b := BookingForm.handleFormSubmit services st in
    BookingForm.totalAmount b
      = BookingForm.sumPrice services (BookingForm.selectedServices st) /\
    (BookingForm.requiresPayment b = true <->
       exists serviceId service,
         In serviceId (BookingForm.selectedServices st) /\
         BookingForm.findService services serviceId = Some service /\
         Service.requiresDeposit service = Some true) /\
    (BookingForm.requiresPayment b = false -> BookingForm.depositAmount b = 0%Q) /\
    (BookingForm.requiresPayment b = true ->
       exists k : Z,
         (BookingForm.depositAmount b == inject_Z k / 100)%Q /\
         (BookingForm.totalAmount b * (2 # 10) - (1 # 200)
            < BookingForm.depositAmount b)%Q /\
         (BookingForm.depositAmount b
            <= BookingForm.totalAmount b * (2 # 10) + (1 # 200))%Q) /\
    (~ (BookingForm.depositAmount b == 0)%Q -> BookingForm.requiresPayment b = true) /\
    (BookingForm.requiresPayment b = true ->
       (25 # 1000 <= BookingForm.totalAmount b)%Q ->
       (1 # 100 <= BookingForm.depositAmount b)%Q).
Proof.
  intros tz services evs st b.
  destruct (run_totals tz services evs BookingForm.initial) as [_ Hp];
    [reflexivity | reflexivity |]. fold st in Hp.
  unfold b, BookingForm.handleFormSubmit. simpl.
  split; [exact Hp|]. split; [apply requiresDeposit_exists|].
  set (req := existsb _ _).
  split; [intros ->; reflexivity|]. split; [|split].
  - intros ->.
    destruct (Math_round_nearest (BookingForm.totalPrice st * (2 # 10) * 100))
      as (k & -> & Hlo & Hhi).
    exists k. split; [reflexivity|]. split.
    + apply Qlt_shift_div_l; lra.
    + apply Qle_shift_div_r; lra.
  - intros Hnz. destruct req; [reflexivity|]. exfalso. apply Hnz. reflexivity.
  - intros -> Hge. apply Qle_shift_div_l; [lra|].
    assert (H1 : (1 <= Js.Math_round (BookingForm.totalPrice st * (2 # 10) * 100))%Q).
    { apply Math_round_ge_1. lra. }
    lra.
Qed.

Lemma C4_deposit_is_rounded_fifth_of_total_witness :
  let coupe := Service.mk "s1" "salon" "Coupe" None 30 2500 None (Some true)
                          None None None (Some true) None in
  let st := BookingForm.run 0 [coupe]
              [(utc 2025 1 1 7 0, BookingForm.ClickService "s1")]
              BookingForm.initial in
  (1 # 100 <= BookingForm.depositAmount (BookingForm.handleFormSubmit [coupe] st))%Q /\
  (BookingForm.depositAmount
     (BookingForm.handleFormSubmit [coupe] BookingForm.initial) = 0)%Q.
Proof.
  intros coupe st. split.
  - apply (C4_deposit_is_rounded_fifth_of_total 0 [coupe]
             [(utc 2025 1 1 7 0, BookingForm.ClickService "s1")]).
    + reflexivity.
    + vm_compute. discriminate.
  - apply (C4_deposit_is_rounded_fifth_of_total 0 [coupe] []). reflexivity.
Defined.

(* ================================================================== *)
(** ** The storage layer *)

Section StorageFacts.
Import Storage.

Lemma updateWhere_Forall2 {A} (cond : A -> bool) (set : A -> A) (rows : list A) :
  Forall2 (fun r r' => r' = if cond r then set r else r)
          rows (updateWhere cond set rows).
Proof.
  induction rows as [|r rows IH]; simpl; constructor; auto.
Qed.

Lemma Forall2_weaken {A B} (P Q : A -> B -> Prop) l l' :
  (forall a b, P a b -> Q a b) -> Forall2 P l l' -> Forall2 Q l l'.
Proof. intros HPQ H. induction H; constructor; auto. Qed.

(** The row an update writes keeps its id. *)
Lemma hasId_setAppointment id p now a :
  hasId id (setAppointment p now a) = hasId id a.
Proof. reflexivity. Qed.

(** Two updates of the rows of one id in a row. *)
Lemma updateWhere_twice id (set1 set2 : Appointment.t -> Appointment.t) rows :
  (forall a, hasId id (set1 a) = hasId id a) ->
  updateWhere (hasId id) set2 (updateWhere (hasId id) set1 rows)
  = updateWhere (hasId id) (fun a => set2 (set1 a)) rows.
Proof.
  intros Hid. unfold updateWhere. rewrite map_map. apply map_ext; intros a.
  destruct (hasId id a) eqn:E; [rewrite Hid, E | rewrite E]; reflexivity.
Qed.

Lemma returning_twice id (set1 set2 : Appointment.t -> Appointment.t) rows :
  (forall a, hasId id (set1 a) = hasId id a) ->
  returning (hasId id) set2 (updateWhere (hasId id) set1 rows)
  = returning (hasId id) (fun a => set2 (set1 a)) rows.
Proof.
  intros Hid. unfold returning, updateWhere.
  induction rows as [|a rows IH]; simpl; [reflexivity|].
  destruct (hasId id a) eqn:E.
  - rewrite Hid, E. simpl. now rewrite IH.
  - rewrite E. exact IH.
Qed.

(** A cancellation overwrites what an earlier one wrote. *)
Lemma cancellation_overwrites t1 r1 t2 r2 a :
  setAppointment (cancellation t2 r2) t2 (setAppointment (cancellation t1 r1) t1 a)
  = setAppointment (cancellation t2 r2) t2 a.
Proof. reflexivity. Qed.

Lemma cancellation_cancelledAs now reason a :
  Spec.cancelledAs now reason a (setAppointment (cancellation now reason) now a).
Proof. unfold Spec.cancelledAs, Spec.sameBooking. simpl. tauto. Qed.

End StorageFacts.

(** C9.  deleteService(id) and deleteStylist(id) keep every row: the rows of
    that id come out with isActive = false and every other column as it was,
    all other rows of the table are unchanged, and so are the other tables
    (the appointments among them). *)
Theorem C9_delete_only_deactivates :
  forall id db,
    (Forall2 (fun s s' => if String.eqb (Service.id s) id
                          then Spec.deactivatedService s s' else s' = s)
             (Storage.services db)
             (Storage.services (Storage.deleteService id db)) /\
     Storage.stylists (Storage.deleteService id db) = Storage.stylists db /\
     Storage.appointments (Storage.deleteService id db) = Storage.appointments db /\
     Storage.reviews (Storage.deleteService id db) = Storage.reviews db) /\
    (Forall2 (fun s s' => if String.eqb (Stylist.id s) id
                          then Spec.deactivatedStylist s s' else s' = s)
             (Storage.stylists db)
             (Storage.stylists (Storage.deleteStylist id db)) /\
     Storage.services (Storage.deleteStylist id db) = Storage.services db /\
     Storage.appointments (Storage.deleteStylist id db) = Storage.appointments db /\
     Storage.reviews (Storage.deleteStylist id db) = Storage.reviews db).
Proof.
  intros id db. split; (split; [|repeat split]); simpl.
  - eapply Forall2_weaken; [|apply updateWhere_Forall2].
    intros s s' ->. simpl.
    destruct (String.eqb (Service.id s) id); [|reflexivity].
    unfold Spec.deactivatedService. simpl. tauto.
  - eapply Forall2_weaken; [|apply updateWhere_Forall2].
    intros s s' ->. simpl.
    destruct (String.eqb (Stylist.id s) id); [|reflexivity].
    unfold Spec.deactivatedStylist. simpl. tauto.
Qed.

(** C6 (counterexample).  An appointment cancelled at 10:00 and cancelled
    again, with the same reason, at 11:00: cancelledAt is 10:00 after the first
    call and 11:00 after the second, and the tables after the second call are
    not those after the first. *)
Lemma C6_second_cancel_restamps :
  let t1 := utc 2025 1 15 10 0 in
  let t2 := utc 2025 1 15 11 0 in
  let apt := Appointment.mk "a1" "salon" "c1" None ["s1"]
               (utc 2025 1 16 9 0) (utc 2025 1 16 10 0) "pending" (Some "form")
               5000 None (Some "pending") None None None None None None None in
  let db0 := Storage.mkDb [] [] [apt] [] in
  let db1 := fst (Storage.cancelAppointment t1 "a1" "Cancelled by client" db0) in
  let db2 := fst (Storage.cancelAppointment t2 "a1" "Cancelled by client" db1) in
  option_map Appointment.cancelledAt (Storage.getAppointment "a1" db1) = Some (Some t1) /\
  option_map Appointment.cancelledAt (Storage.getAppointment "a1" db2) = Some (Some t2) /\
  t1 <> t2 /\
  db2 <> db1.
Proof.
  cbv zeta. repeat split; try (vm_compute; discriminate).
Qed.

(** C6 (amended).  Cancelling twice leaves the tables, and returns the record,
    that the second cancellation alone would: every row of that id has status
    'cancelled' and all its booking columns as before, with cancelledAt,
    updatedAt and cancellationReason those of the second call.  The second
    call thus changes nothing exactly when it carries the clock reading and
    the reason of the first. *)
Theorem C6_last_cancellation_wins :
  forall t1 r1 t2 r2 id db,
    let once := Storage.cancelAppointment t1 id r1 db in
    let twice := Storage.cancelAppointment t2 id r2 (fst once) in
    twice = Storage.cancelAppointment t2 id r2 db /\
    Forall2 (fun a a' => if Storage.hasId id a
                         then Spec.cancelledAs t2 r2 a a' else a' = a)
            (Storage.appointments db) (Storage.appointments (fst twice)) /\
    (t1 = t2 -> r1 = r2 -> twice = once).
Proof.
  intros t1 r1 t2 r2 id db once twice.
  assert (E : twice = Storage.cancelAppointment t2 id r2 db).
  { unfold twice, once, Storage.cancelAppointment, Storage.withAppointments. simpl.
    rewrite updateWhere_twice, returning_twice by reflexivity.
    reflexivity. }
  split; [exact E|]. split.
  - rewrite E. simpl.
    eapply Forall2_weaken; [|apply updateWhere_Forall2].
    intros a a' ->. simpl.
    destruct (Storage.hasId id a); [|reflexivity].
    apply cancellation_cancelledAs.
  - intros <- <-. exact E.
Qed.

Lemma C6_last_cancellation_wins_witness :
  let t := utc 2025 1 15 10 0 in
  let apt := Appointment.mk "a1" "salon" "c1" None ["s1"]
               (utc 2025 1 16 9 0) (utc 2025 1 16 10 0) "confirmed" (Some "form")
               5000 None (Some "pending") None None None None None None None in
  let db := Storage.mkDb [] [] [apt] [] in
  Storage.cancelAppointment t "a1" "r" (fst (Storage.cancelAppointment t "a1" "r" db))
  = Storage.cancelAppointment t "a1" "r" db.
Proof.
  intros t apt db.
  apply (proj2 (proj2 (C6_last_cancellation_wins t "r" t "r" "a1" db)));
    reflexivity.
Defined.

(** C8 (counterexample).  A completed appointment is cancelled through the
    cancel route, and the cancelled appointment is then set back to pending
    through the PATCH route: both calls move it out of a terminal state. *)
Lemma C8_terminal_states_are_left :
  let now := utc 2025 1 17 8 0 in
  let apt := Appointment.mk "a1" "salon" "c1" None ["s1"]
               (utc 2025 1 16 9 0) (utc 2025 1 16 10 0) "completed" (Some "form")
               5000 None (Some "paid") None None None None None None None in
  let db0 := Storage.mkDb [] [] [apt] [] in
  let db1 := fst (Storage.cancelAppointmentRoute now "a1" None db0) in
  let body := Appointment.mkPartial None None None None None None (Some "pending")
                None None None None None None None None None in
  let db2 := fst (Storage.patchAppointmentRoute now "a1" body db1) in
  option_map Appointment.status (Storage.getAppointment "a1" db0) = Some "completed" /\
  option_map Appointment.status (Storage.getAppointment "a1" db1) = Some "cancelled" /\
  option_map Appointment.status (Storage.getAppointment "a1" db2) = Some "pending".
Proof. vm_compute. repeat split. Qed.

(** C8 (amended).  The storage layer and the two routes put no condition on
    the current status.  After updateAppointment every row of the id has the
    status the update carries, whatever it is, or its old status when the
    update carries none; after cancelAppointment every row of the id has
    status 'cancelled', whatever it was.  The other rows are unchanged.  Only
    the appointments page restricts the moves, by the buttons it shows:
    pending to confirmed or cancelled, confirmed to completed or cancelled,
    no_show to cancelled, and none from completed or cancelled. *)
Theorem C8_status_is_overwritten_unconditionally :
  (forall now id db body,
      Forall2 (fun a a' =>
                 if Storage.hasId id a
                 then Appointment.status a'
                      = Storage.orElse (Appointment.p_status body) (Appointment.status a)
                 else a' = a)
              (Storage.appointments db)
              (Storage.appointments (fst (Storage.patchAppointmentRoute now id body db)))) /\
  (forall now id db reason,
      Forall2 (fun a a' =>
                 if Storage.hasId id a
                 then Appointment.status a' = "cancelled"
                 else a' = a)
              (Storage.appointments db)
              (Storage.appointments (fst (Storage.cancelAppointmentRoute now id reason db)))) /\
  AppointmentsPage.offeredStatuses "pending" = ["confirmed"; "cancelled"] /\
  AppointmentsPage.offeredStatuses "confirmed" = ["completed"; "cancelled"] /\
  AppointmentsPage.offeredStatuses "no_show" = ["cancelled"] /\
  AppointmentsPage.offeredStatuses "completed" = [] /\
  AppointmentsPage.offeredStatuses "cancelled" = [].
Proof.
  split; [|split; [|repeat split]];
    intros now id db x; simpl;
    (eapply Forall2_weaken; [|apply updateWhere_Forall2]);
    intros a a' ->; simpl; destruct (Storage.hasId id a); reflexivity.
Qed.

(* ================================================================== *)
(** ** Salon metrics *)

Section MetricsFacts.
Import Storage.

Lemma filter_filter {A} (p q : A -> bool) (l : list A) :
  filter p (filter q l) = filter (fun a => q a && p a) l.
Proof.
  induction l as [|a l IH]; simpl; [reflexivity|].
  destruct (q a); simpl; [destruct (p a)|]; now rewrite IH.
Qed.

(** The reduce that adds up amounts, against the sum of the list. *)
Lemma fold_left_sumQ {A} (f : A -> Q) (l : list A) : forall acc : Q,
  (fold_left (fun sum a => sum + f a) l acc == acc + Spec.sumQ (map f l))%Q.
Proof.
  induction l as [|a l IH]; intros acc; simpl.
  - lra.
  - rewrite IH. lra.
Qed.

(** The average is a number whenever it is computed. *)
Lemma div_by_length {A} (x : Q) (l : list A) :
  (0 <? len l) = true -> Js.div x (inject_Z (len l)) = Some (x / inject_Z (len l))%Q.
Proof.
  intros H. apply Z.ltb_lt in H. unfold Js.div.
  destruct (Qeq_bool (inject_Z (len l)) 0) eqn:E; [|reflexivity].
  apply Qeq_bool_eq in E. unfold Qeq in E. simpl in E. lia.
Qed.

(** *** The histogram *)

Lemma get_set {V} k k' (v : V) m :
  Js.Map.get k (Js.Map.set k' v m)
  = if String.eqb k' k then Some v else Js.Map.get k m.
Proof.
  induction m as [|[k0 v0] m IH]; simpl.
  - reflexivity.
  - destruct (String.eqb k0 k') eqn:E0; simpl.
    + apply String.eqb_eq in E0. subst k0.
      destruct (String.eqb k' k); reflexivity.
    + rewrite IH. destruct (String.eqb k0 k) eqn:E1; [|reflexivity].
      apply String.eqb_eq in E1. subst k0. now rewrite String.eqb_sym, E0.
Qed.

Lemma keys_set {V} k (v : V) m :
  (In k (map fst m) -> map fst (Js.Map.set k v m) = map fst m) /\
  (~ In k (map fst m) -> map fst (Js.Map.set k v m) = (map fst m ++ [k])%list).
Proof.
  induction m as [|[k0 v0] m [IHin IHout]]; simpl.
  - split; [contradiction | reflexivity].
  - destruct (String.eqb k0 k) eqn:E; simpl.
    + apply String.eqb_eq in E. subst k0. split; [reflexivity|].
      intros H. exfalso. apply H. now left.
    + apply String.eqb_neq in E. split.
      * intros [H|H]; [contradiction|]. now rewrite IHin.
      * intros H. rewrite IHout; [reflexivity|]. intros Hin. apply H. now right.
Qed.

Lemma NoDup_snoc {A} (l : list A) x : NoDup l -> ~ In x l -> NoDup (l ++ [x]).
Proof.
  intros Hl Hx. apply NoDup_rev in Hl.
  rewrite <- (rev_involutive (l ++ [x])). apply NoDup_rev.
  rewrite rev_app_distr. simpl. constructor; [|assumption].
  now rewrite <- in_rev.
Qed.

Lemma NoDup_keys_set {V} k (v : V) m :
  NoDup (map fst m) -> NoDup (map fst (Js.Map.set k v m)).
Proof.
  intros H. destruct (keys_set k v m) as [Hin Hout].
  destruct (in_dec string_dec k (map fst m)) as [i|n].
  - now rewrite Hin.
  - rewrite Hout by assumption. now apply NoDup_snoc.
Qed.

Lemma In_get {V} k (v : V) m :
  NoDup (map fst m) -> In (k, v) m -> Js.Map.get k m = Some v.
Proof.
  induction m as [|[k0 v0] m IH]; simpl; [contradiction|].
  intros Hnd [Heq|Hin].
  - injection Heq as -> ->. now rewrite String.eqb_refl.
  - inversion Hnd as [|? ? Hnot Hnd']; subst.
    destruct (String.eqb k0 k) eqn:E.
    + apply String.eqb_eq in E. subst k0. exfalso. apply Hnot.
      change k with (fst (k, v)). now apply in_map.
    + now apply IH.
Qed.

Section Histogram.
Variable serviceMap : Js.Map.t string.

Let nameOf (serviceId : string) : string :=
  Js.orString (Js.Map.get serviceId serviceMap) "Unknown Service".

Lemma get_countService m serviceId name :
  orElse (Js.Map.get name (countService serviceMap m serviceId)) 0
  = orElse (Js.Map.get name m) 0
    + Spec.occurrences name [nameOf serviceId].
Proof.
  unfold countService, Spec.occurrences. fold (nameOf serviceId).
  rewrite get_set. simpl.
  destruct (string_dec (nameOf serviceId) name) as [->|n].
  - rewrite String.eqb_refl. simpl. lia.
  - apply String.eqb_neq in n. rewrite n. simpl. lia.
Qed.

Lemma occurrences_cons name n names :
  Spec.occurrences name (n :: names)
  = Spec.occurrences name [n] + Spec.occurrences name names.
Proof.
  unfold Spec.occurrences. simpl.
  destruct (string_dec n name); lia.
Qed.

Lemma get_countServices serviceIds : forall m name,
  orElse (Js.Map.get name (fold_left (countService serviceMap) serviceIds m)) 0
  = orElse (Js.Map.get name m) 0
    + Spec.occurrences name (map nameOf serviceIds).
Proof.
  induction serviceIds as [|i ids IH]; intros m name; simpl.
  - unfold Spec.occurrences. simpl. lia.
  - rewrite (occurrences_cons name (nameOf i) (map nameOf ids)).
    rewrite IH, get_countService. lia.
Qed.

Lemma NoDup_countServices serviceIds : forall m,
  NoDup (map fst m) ->
  NoDup (map fst (fold_left (countService serviceMap) serviceIds m)).
Proof.
  induction serviceIds as [|i ids IH]; intros m H; simpl; [assumption|].
  apply IH. unfold countService. now apply NoDup_keys_set.
Qed.
End Histogram.

Lemma fold_left_flat_map {A B C} (f : C -> B -> C) (g : A -> list B) l :
  forall acc,
    fold_left (fun m a => fold_left f (g a) m) l acc
    = fold_left f (flat_map g l) acc.
Proof.
  induction l as [|a l IH]; intros acc; simpl; [reflexivity|].
  now rewrite fold_left_app, IH.
Qed.

(** *** The sort *)

Lemma insert_perm (x : TopService) l :
  Permutation (Js.insert Spec.byCount x l) (x :: l).
Proof.
  induction l as [|y l IH]; simpl; [reflexivity|].
  destruct (Spec.byCount x y <=? 0); [reflexivity|].
  rewrite IH. apply perm_swap.
Qed.

Lemma sort_perm l : Permutation (Js.sort Spec.byCount l) l.
Proof.
  induction l as [|x l IH]; simpl; [reflexivity|].
  rewrite insert_perm. now constructor.
Qed.

Lemma insert_sorted x l :
  StronglySorted Spec.descending l -> StronglySorted Spec.descending (Js.insert Spec.byCount x l).
Proof.
  induction 1 as [|y l Hs IH Hy]; simpl.
  - repeat constructor.
  - unfold Spec.byCount at 1. destruct (count y - count x <=? 0) eqn:E.
    + apply Z.leb_le in E. constructor; [now constructor|].
      constructor; [unfold Spec.descending; lia|].
      eapply Forall_impl; [|exact Hy]. unfold Spec.descending. intros z Hz. lia.
    + apply Z.leb_gt in E. constructor; [exact IH|].
      eapply Permutation_Forall; [symmetry; apply insert_perm|].
      constructor; [unfold Spec.descending; lia | exact Hy].
Qed.

Lemma sort_sorted l : StronglySorted Spec.descending (Js.sort Spec.byCount l).
Proof.
  induction l as [|x l IH]; simpl; [constructor | now apply insert_sorted].
Qed.

Lemma firstn_incl {A} n (l : list A) x : In x (firstn n l) -> In x l.
Proof.
  intros H. rewrite <- (firstn_skipn n l). apply in_or_app. now left.
Qed.

Lemma firstn_sorted n : forall l,
  StronglySorted Spec.descending l -> StronglySorted Spec.descending (firstn n l).
Proof.
  induction n as [|n IH]; intros l H; simpl; [constructor|].
  destruct H as [|y l Hs Hy]; [constructor|].
  constructor; [now apply IH|].
  rewrite Forall_forall in *. intros z Hz. apply Hy.
  now apply firstn_incl in Hz.
Qed.

(** topServices, with the two nested loops read as one pass over the
    service ids of the appointments in range. *)
Lemma topServices_unfold salonId startDate endDate db :
  topServices (getSalonMetrics salonId startDate endDate db)
  = firstn 5
      (Js.sort Spec.byCount
         (map (fun e => mkTop (fst e) (snd e))
              (fold_left
                 (countService
                    (Js.Map.ofEntries
                       (map (fun s => (Service.id s, Service.name s))
                            (filter (fun s => String.eqb (Service.salonId s) salonId)
                                    (services db)))))
                 (flat_map Appointment.serviceIds
                           (filter (inRange salonId startDate endDate)
                                   (appointments db)))
                 Js.Map.empty))).
Proof.
  rewrite <- fold_left_flat_map. reflexivity.
Qed.

Lemma filter_inRange_relabel salonId startDate endDate f l :
  flat_map Appointment.serviceIds
    (filter (inRange salonId startDate endDate)
            (map (fun a => Spec.withStatus (f a) a) l))
  = flat_map Appointment.serviceIds
      (filter (inRange salonId startDate endDate) l).
Proof.
  induction l as [|a l IH]; simpl; [reflexivity|].
  change (inRange salonId startDate endDate (Spec.withStatus (f a) a))
    with (inRange salonId startDate endDate a).
  destruct (inRange salonId startDate endDate a); simpl; now rewrite IH.
Qed.

End MetricsFacts.

(** Service A booked in three appointments and service B in one: the
    histogram is A with 3, then B with 1. *)
Example topServices_two_services :
  let svc id name := Service.mk id "salon" name None 30 2500 None (Some false)
                                None None None (Some true) None in
  let apt id day status ids :=
    Appointment.mk id "salon" "c1" None ids
      (utc 2025 1 day 9 0) (utc 2025 1 day 10 0) status (Some "form")
      2500 None (Some "pending") None None None None None None None in
  let db := Storage.mkDb [svc "sA" "A"; svc "sB" "B"] []
              [apt "a1" 10 "completed" ["sB"; "sA"]; apt "a2" 11 "cancelled" ["sA"];
               apt "a3" 12 "no_show" ["sA"]] [] in
  Storage.topServices
    (Storage.getSalonMetrics "salon" (utc 2025 1 1 0 0) (utc 2025 1 31 0 0) db)
  = [Storage.mkTop "A" 3; Storage.mkTop "B" 1].
Proof. reflexivity. Qed.

(** The sum of the ratings is the sum of the integers. *)
Lemma ratings_add_up (l : list Review.t) :
  (fold_left (fun sum review => sum + inject_Z (Review.rating review)) l 0
   == inject_Z (fold_right Z.add 0%Z (map Review.rating l)))%Q.
Proof.
  rewrite (fold_left_sumQ (fun review => inject_Z (Review.rating review))).
  induction l as [|r l IH]; simpl.
  - reflexivity.
  - rewrite inject_Z_plus. simpl in IH. lra.
Qed.

(** The revenue is the amounts of the completed appointments in range, added
    up in the order of the table. *)
Lemma totalRevenue_addUp salonId startDate endDate db :
  Storage.totalRevenue (Storage.getSalonMetrics salonId startDate endDate db)
  = Spec.addUp (Spec.revenueRows salonId startDate endDate db).
Proof.
  unfold Storage.getSalonMetrics, Spec.addUp, Spec.revenueRows.
  cbn [Storage.totalRevenue]. now rewrite filter_filter.
Qed.

(** C5 (counterexample).  Two completed appointments of 0.10 and 0.20 in the
    range: the revenue is not the number 0.30, the sum of the two amounts; it
    is the double just above it (0.30000000000000004, more by 2^-54). *)
Lemma C5_revenue_is_not_the_exact_sum :
  let apt id day status amount :=
    Appointment.mk id "salon" "c1" None ["s1"]
      (utc 2025 1 day 9 0) (utc 2025 1 day 10 0) status (Some "form")
      amount None (Some "pending") None None None None None None None in
  let db := Storage.mkDb [] []
              [apt "a1" 10 "completed" 10; apt "a2" 11 "completed" 20] [] in
  let m := Storage.getSalonMetrics "salon" (utc 2025 1 1 0 0) (utc 2025 1 31 0 0) db in
  Storage.totalRevenue m <> Js.Number_double (10 + 20) /\
  PrimFloat.ltb (Js.Number_double (10 + 20)) (Storage.totalRevenue m) = true /\
  PrimFloat.sub (Storage.totalRevenue m) (Js.Number_double (10 + 20))
  = PrimFloat.div (Js.ofZ 1) (Js.ofZ (2 ^ 54)).
Proof.
  cbv zeta. split; [|split].
  - intros H.
    apply (f_equal (PrimFloat.eqb (Js.Number_double (10 + 20)))) in H.
    vm_compute in H. discriminate H.
  - vm_compute. reflexivity.
  - vm_compute. reflexivity.
Qed.

(** C5 (amended).  totalRevenue is the amounts of the appointments of the
    salon that start in the range and have status 'completed', and of no
    others, added up as doubles in the order the rows come: a row that is not
    completed, or not in the range, can be taken out of the table without
    changing it.  With three completed appointments of 50, 30 and 20 and two
    cancelled ones of 40 each in the range, it is 100. *)
Theorem C5_revenue_counts_completed_only :
  (forall salonId startDate endDate db,
      Storage.totalRevenue (Storage.getSalonMetrics salonId startDate endDate db)
      = Spec.addUp (Spec.revenueRows salonId startDate endDate db)) /\
  (forall salonId startDate endDate db before apt after,
      Storage.appointments db = (before ++ apt :: after)%list ->
      Storage.inRange salonId startDate endDate apt
      && String.eqb (Appointment.status apt) "completed" = false ->
      Storage.totalRevenue (Storage.getSalonMetrics salonId startDate endDate db)
      = Storage.totalRevenue
          (Storage.getSalonMetrics salonId startDate endDate
             (Storage.withAppointments (before ++ after)%list db))) /\
  (let apt id day status amount :=
     Appointment.mk id "salon" "c1" None ["s1"]
       (utc 2025 1 day 9 0) (utc 2025 1 day 10 0) status (Some "form")
       amount None (Some "pending") None None None None None None None in
   let db := Storage.mkDb [] []
               [apt "a1" 10 "completed" 5000; apt "a2" 11 "cancelled" 4000;
                apt "a3" 12 "completed" 3000; apt "a4" 13 "cancelled" 4000;
                apt "a5" 14 "completed" 2000] [] in
   Storage.totalRevenue
     (Storage.getSalonMetrics "salon" (utc 2025 1 1 0 0) (utc 2025 1 31 0 0) db)
   = Js.ofZ 100).
Proof.
  split; [|split].
  - apply totalRevenue_addUp.
  - intros salonId startDate endDate db before apt after Hrows Hout.
    rewrite !totalRevenue_addUp. unfold Spec.revenueRows.
    cbn [Storage.withAppointments Storage.appointments].
    rewrite Hrows, !filter_app. cbn [filter]. now rewrite Hout.
  - vm_compute. reflexivity.
Qed.

Lemma C5_revenue_counts_completed_only_witness :
  let apt id day status amount :=
    Appointment.mk id "salon" "c1" None ["s1"]
      (utc 2025 1 day 9 0) (utc 2025 1 day 10 0) status (Some "form")
      amount None (Some "pending") None None None None None None None in
  let before := [apt "a1" 10 "completed" 5000] in
  let after := [apt "a3" 12 "completed" 3000; apt "a4" 13 "cancelled" 4000;
                apt "a5" 14 "completed" 2000] in
  let db := Storage.mkDb [] [] (before ++ apt "a2" 11 "cancelled" 4000 :: after)%list [] in
  Storage.totalRevenue
    (Storage.getSalonMetrics "salon" (utc 2025 1 1 0 0) (utc 2025 1 31 0 0) db)
  = Storage.totalRevenue
      (Storage.getSalonMetrics "salon" (utc 2025 1 1 0 0) (utc 2025 1 31 0 0)
         (Storage.withAppointments (before ++ after)%list db)).
Proof.
  intros apt before after db.
  apply (proj1 (proj2 C5_revenue_counts_completed_only)
           "salon" (utc 2025 1 1 0 0) (utc 2025 1 31 0 0) db
           before (apt "a2" 11 "cancelled" 4000) after).
  - reflexivity.
  - reflexivity.
Defined.

(** C7 (counterexample).  A salon with no appointment at all and one review
    of 4 stars: the range holds zero appointments and averageRating is 4. *)
Lemma C7_average_rating_without_appointments :
  let review := Review.mk "r1" "salon" "c1" None None 4 None (Some true) None None in
  let db := Storage.mkDb [] [] [] [review] in
  let m := Storage.getSalonMetrics "salon" (utc 2025 1 1 0 0) (utc 2025 1 31 0 0) db in
  Storage.totalAppointments m = 0 /\
  exists q, Storage.averageRating m = Some q /\ (q == 4)%Q /\ ~ (q == 0)%Q.
Proof.
  cbv zeta. split; [reflexivity|].
  eexists. split; [vm_compute; reflexivity|]. split; [reflexivity | discriminate].
Qed.

(** C7 (amended).  averageRating is 0 when the salon has no review, and
    otherwise the mean of the ratings of all the reviews of the salon: the
    sum of the ratings divided by their number (the quotient is taken as it
    is, where the code has the double nearest to it), whatever the
    appointments and the range.  When no appointment of the salon starts in the range,
    totalAppointments, totalRevenue, noShows and completedAppointments are 0
    and topServices is empty. *)
Theorem C7_metrics_of_an_empty_range :
  forall salonId startDate endDate db,
    let m := Storage.getSalonMetrics salonId startDate endDate db in
    let ratings := Spec.salonRatings salonId db in
    (ratings = [] -> Storage.averageRating m = Some 0%Q) /\
    (ratings <> [] ->
       exists q, Storage.averageRating m = Some q /\ (q == Spec.mean ratings)%Q) /\
    (filter (Storage.inRange salonId startDate endDate) (Storage.appointments db) = [] ->
       Storage.totalAppointments m = 0 /\
       Storage.totalRevenue m = PrimFloat.zero /\
       Storage.noShows m = 0 /\
       Storage.completedAppointments m = 0 /\
       Storage.topServices m = []).
Proof.
  intros salonId startDate endDate db m ratings.
  unfold ratings, Spec.salonRatings, m, Storage.getSalonMetrics.
  cbn [Storage.averageRating Storage.totalAppointments Storage.totalRevenue
       Storage.noShows Storage.completedAppointments Storage.topServices].
  set (salonReviews := filter _ (Storage.reviews db)).
  split; [|split].
  - intros H. apply map_eq_nil in H. now rewrite H.
  - intros H.
    assert (Hpos : (0 <? Storage.len salonReviews) = true).
    { apply Z.ltb_lt. unfold Storage.len.
      destruct salonReviews; [now contradiction H | simpl; lia]. }
    rewrite Hpos, (div_by_length _ _ Hpos).
    eexists. split; [reflexivity|].
    unfold Spec.mean, Storage.len. now rewrite ratings_add_up, length_map.
  - intros H. rewrite H. repeat split; reflexivity.
Qed.

Lemma C7_metrics_of_an_empty_range_witness :
  let review salon n := Review.mk "r" salon "c1" None None n None (Some true) None None in
  let apt := Appointment.mk "a1" "salon" "c1" None ["s1"]
               (utc 2025 2 10 9 0) (utc 2025 2 10 10 0) "completed" (Some "form")
               5000 None (Some "pending") None None None None None None None in
  let db := Storage.mkDb [] [] [apt]
              [review "salon" 4; review "other" 1; review "salon" 5] in
  let m := Storage.getSalonMetrics "salon" (utc 2025 1 1 0 0) (utc 2025 1 31 0 0) db in
  (exists q, Storage.averageRating m = Some q /\ (q == 9 # 2)%Q) /\
  (Storage.totalAppointments m = 0 /\ Storage.totalRevenue m = PrimFloat.zero /\
   Storage.noShows m = 0 /\ Storage.completedAppointments m = 0 /\
   Storage.topServices m = []).
Proof.
  intros review apt db m.
  destruct (C7_metrics_of_an_empty_range "salon" (utc 2025 1 1 0 0)
              (utc 2025 1 31 0 0) db)
    as (_ & Hmean & Hempty).
  split; [|apply Hempty; reflexivity].
  destruct Hmean as (q & Hq & E); [discriminate|].
  exists q. split; [exact Hq|]. rewrite E. reflexivity.
Defined.

(* ================================================================== *)
(** * Further properties *)

(** ** The slot generator, continued *)

Section MoreSlotFacts.

Lemma addMinutes_0 (t : Date) : addMinutes t 0 = t.
Proof. unfold addMinutes. lia. Qed.

Lemma localTime_slot tz date h m d :
  localTime tz (addMinutes (setHours tz date h m 0 0) d)
  = (localTime tz date / msPerDay) * msPerDay + (h * 60 + m + d) * msPerMinute.
Proof.
  unfold addMinutes, setHours, localTime, msPerDay, msPerHour, msPerMinute. lia.
Qed.

(** The local hour and minute in which a slot of [d] minutes starting at
    [h]:[m] ends. *)
Lemma getHours_slot tz date h m d :
  getHours tz (addMinutes (setHours tz date h m 0 0) d)
  = ((h * 60 + m + d) / 60) mod 24.
Proof.
  unfold getHours. rewrite localTime_slot.
  generalize (localTime tz date / msPerDay) (h * 60 + m + d). intros day x.
  unfold msPerDay, msPerMinute, msPerHour.
  replace (day * 86400000 + x * 60000) with (x * 60000 + (day * 24) * 3600000) by lia.
  rewrite Z.div_add by lia.
  replace 3600000 with (60 * 60000) by reflexivity.
  rewrite Z.div_mul_cancel_r by lia.
  apply Z.mod_add. lia.
Qed.

Lemma getMinutes_slot tz date h m d :
  getMinutes tz (addMinutes (setHours tz date h m 0 0) d) = (h * 60 + m + d) mod 60.
Proof.
  unfold getMinutes. rewrite localTime_slot.
  generalize (localTime tz date / msPerDay) (h * 60 + m + d). intros day x.
  unfold msPerDay, msPerMinute.
  replace (day * 86400000 + x * 60000) with ((x + day * 1440) * 60000) by lia.
  rewrite Z.div_mul by lia.
  replace (x + day * 1440) with (x + (day * 24) * 60) by lia.
  apply Z.mod_add. lia.
Qed.

Lemma In_cells h m :
  In (h, m) Grid.cells <-> 9 <= h <= 17 /\ (m = 0 \/ m = 30).
Proof.
  unfold Grid.cells. rewrite in_flat_map. split.
  - intros (hour & Hh & Hin). apply in_map_iff in Hin.
    destruct Hin as (minute & Heq & Hm). injection Heq as <- <-.
    simpl in Hh, Hm. lia.
  - intros [Hh Hm]. exists h. split; [simpl; lia|].
    apply in_map. simpl. lia.
Qed.

(** The string pushed for a cell of the grid is its label. *)
Lemma format_cell tz date cell :
  In cell Grid.cells ->
  format_HHmm tz (setHours tz date (fst cell) (snd cell) 0 0) = Grid.label cell.
Proof.
  destruct cell as [h m]. intros Hin. apply In_cells in Hin. simpl.
  unfold format_HHmm, Grid.label. simpl fst. simpl snd.
  rewrite <- (addMinutes_0 (setHours tz date h m 0 0)).
  rewrite getHours_slot, getMinutes_slot.
  destruct Hin as [Hh [-> | ->]].
  - replace (h * 60 + 0 + 0) with (h * 60) by lia.
    rewrite Z.div_mul, Z.mod_mul by lia.
    rewrite Z.mod_small by lia. reflexivity.
  - replace (h * 60 + 30 + 0) with (30 + h * 60) by lia.
    rewrite Z.div_add, Z.mod_add by lia.
    change (30 / 60) with 0. change (30 mod 60) with 30.
    rewrite Z.add_0_l, Z.mod_small by lia. reflexivity.
Qed.

Lemma flat_map_pairs {A B C} (G : A -> B -> list C) (ms : list B) (hs : list A) :
  flat_map (fun h => flat_map (G h) ms) hs
  = flat_map (fun c => G (fst c) (snd c)) (flat_map (fun h => map (pair h) ms) hs).
Proof.
  induction hs as [|h hs IH]; simpl; [reflexivity|].
  rewrite flat_map_app, IH. f_equal. clear IH.
  induction ms as [|m ms IHm]; simpl; [reflexivity|]. now rewrite IHm.
Qed.

Lemma flat_map_keep {A B} (acc : A -> bool) (f : A -> B) (l : list A) :
  flat_map (fun x => if acc x then [f x] else []) l = map f (filter acc l).
Proof.
  induction l as [|x l IH]; simpl; [reflexivity|].
  destruct (acc x); simpl; now rewrite IH.
Qed.

(** The slots pushed, as the cells of the grid that pass the two tests. *)
Lemma generatedSlotStarts_cells tz now date duration :
  generatedSlotStarts tz now date duration
  = map (fun c => setHours tz date (fst c) (snd c) 0 0)
        (filter (fun c =>
                   (getHours tz (addMinutes (setHours tz date (fst c) (snd c) 0 0)
                                            duration) <=? endHour)
                   && (addMinutes now 120 <? setHours tz date (fst c) (snd c) 0 0))
                Grid.cells).
Proof.
  unfold generatedSlotStarts. rewrite hours_scanned, minutes_scanned.
  rewrite (flat_map_pairs (fun h m => optList (slotAt tz now date duration h m))).
  fold Grid.cells. rewrite <- flat_map_keep.
  apply flat_map_ext. intros [h m]. unfold slotAt. simpl.
  destruct (getHours tz _ <=? endHour); [|reflexivity].
  destruct (addMinutes now 120 <? _); reflexivity.
Qed.

Lemma generateTimeSlots_cells tz now date duration :
  generateTimeSlots tz now date duration
  = map Grid.label
        (filter (fun c =>
                   (getHours tz (addMinutes (setHours tz date (fst c) (snd c) 0 0)
                                            duration) <=? endHour)
                   && (addMinutes now 120 <? setHours tz date (fst c) (snd c) 0 0))
                Grid.cells).
Proof.
  rewrite generateTimeSlots_starts, generatedSlotStarts_cells, map_map.
  apply map_ext_in. intros c Hc. apply filter_In in Hc.
  apply format_cell. tauto.
Qed.

Lemma labels_of_cells : map Grid.label Grid.cells = Grid.labels.
Proof. reflexivity. Qed.

Lemma NoDup_labels : NoDup Grid.labels.
Proof.
  replace Grid.labels with (nodup string_dec Grid.labels) by reflexivity.
  apply NoDup_nodup.
Qed.

(** Mapping an injective labelling over a filtered list filters the labels. *)
Lemma map_filter_labels {A} (lab : A -> string) (acc : A -> bool) (l : list A) :
  NoDup (map lab l) ->
  map lab (filter acc l)
  = filter (fun s => existsb (fun x => acc x && String.eqb (lab x) s) l) (map lab l).
Proof.
  induction l as [|x l IH]; simpl; [reflexivity|].
  intros Hnd. inversion Hnd as [|? ? Hnot Hnd']; subst.
  rewrite String.eqb_refl, andb_true_r.
  assert (Htail : filter (fun s => (acc x && String.eqb (lab x) s)
                               || existsb (fun y => acc y && String.eqb (lab y) s) l)
                         (map lab l)
                  = filter (fun s => existsb (fun y => acc y && String.eqb (lab y) s) l)
                           (map lab l)).
  { apply filter_ext_in. intros s Hs.
    destruct (String.eqb (lab x) s) eqn:E.
    - apply String.eqb_eq in E. subst s. contradiction.
    - now rewrite andb_false_r. }
  assert (Hhead : existsb (fun y => acc y && String.eqb (lab y) (lab x)) l = false).
  { apply not_true_is_false. intros H. apply existsb_exists in H.
    destruct H as (y & Hy & H). apply andb_prop in H. destruct H as [_ H].
    apply String.eqb_eq in H. apply Hnot. rewrite <- H. now apply in_map. }
  rewrite Hhead, orb_false_r, Htail.
  destruct (acc x); simpl; now rewrite IH.
Qed.

End MoreSlotFacts.

(** X1.  Whatever the time zone, the clock, the date and the duration,
    generateTimeSlots returns the eighteen labels "09:00", "09:30", ...,
    "17:30" with some of them left out: the labels come in chronological
    order, none twice, and no other string is returned. *)
Theorem generateTimeSlots_keeps_grid_order :
  forall tz now date duration,
    exists keep : string -> bool,
      generateTimeSlots tz now date duration = filter keep Grid.labels.
Proof.
  intros tz now date duration. rewrite generateTimeSlots_cells.
  eexists. rewrite <- labels_of_cells. apply map_filter_labels.
  rewrite labels_of_cells. apply NoDup_labels.
Qed.

(** X2.  For a duration between 0 and 389 minutes, a slot that is generated
    ends before 19:00 of the local day on which it starts: the test on the
    hour of the end lets through no later end. *)
Theorem generated_slot_ends_before_1900 :
  forall tz now date duration t,
    0 <= duration <= 389 ->
    In t (generatedSlotStarts tz now date duration) ->
    minuteOfDay tz t + duration < 19 * 60.
Proof.
  intros tz now date duration t Hd Hin.
  apply In_generatedSlotStarts in Hin. destruct Hin as (h & m & Hh & Hm & Hs).
  unfold slotAt in Hs.
  destruct (getHours tz (addMinutes (setHours tz date h m 0 0) duration) <=? endHour)
    eqn:He; [|discriminate].
  destruct (addMinutes now 120 <? setHours tz date h m 0 0); [|discriminate].
  injection Hs as <-. apply Z.leb_le in He. rewrite getHours_slot in He.
  rewrite minuteOfDay_setHours by lia. unfold endHour in He.
  assert (Hx : 540 <= h * 60 + m + duration <= 1439) by lia.
  revert He Hx. generalize (h * 60 + m + duration). intros x He Hx.
  rewrite Z.mod_small in He.
  - assert (x / 60 * 60 <= x < (x / 60 + 1) * 60).
    { pose proof (Z.div_mod x 60). pose proof (Z.mod_pos_bound x 60). lia. }
    lia.
  - split; [apply Z.div_pos; lia | apply Z.div_lt_upper_bound; lia].
Qed.

Lemma generated_slot_ends_before_1900_witness :
  minuteOfDay 0 (setHours 0 (utc 2025 1 16 0 0) 17 30 0 0) + 60 < 19 * 60.
Proof.
  apply (generated_slot_ends_before_1900 0 (utc 2025 1 1 7 0) (utc 2025 1 16 0 0)).
  - lia.
  - vm_compute. do 17 right. now left.
Defined.

(** X3.  As time passes slots only disappear: a slot returned when the clock
    reads [later] is also returned, for the same date and duration, when it
    reads any earlier time. *)
Theorem generateTimeSlots_shrinks_with_time :
  forall tz earlier later date duration s,
    earlier <= later ->
    In s (generateTimeSlots tz later date duration) ->
    In s (generateTimeSlots tz earlier date duration).
Proof.
  intros tz earlier later date duration s Hle.
  rewrite !generateTimeSlots_cells, !in_map_iff.
  intros (c & Hs & Hc). exists c. split; [assumption|].
  apply filter_In in Hc. destruct Hc as [Hc Hacc]. apply filter_In.
  split; [assumption|].
  apply andb_prop in Hacc. destruct Hacc as [He Hl].
  rewrite He. simpl. apply Z.ltb_lt in Hl. apply Z.ltb_lt.
  unfold addMinutes in *. lia.
Qed.

Lemma generateTimeSlots_shrinks_with_time_witness :
  In "09:30" (generateTimeSlots 0 (utc 2025 1 16 6 0) (utc 2025 1 16 0 0) 60).
Proof.
  apply (generateTimeSlots_shrinks_with_time 0 (utc 2025 1 16 6 0)
           (utc 2025 1 16 7 0)).
  - vm_compute. discriminate.
  - vm_compute. now left.
Defined.

(** X4.  When 09:00 of the chosen day is more than 120 minutes away and the
    duration is between 0 and 89 minutes, all eighteen slots from "09:00" to
    "17:30" are returned. *)
Theorem generateTimeSlots_full_day :
  forall tz now date duration,
    0 <= duration <= 89 ->
    addMinutes now 120 < setHours tz date 9 0 0 0 ->
    generateTimeSlots tz now date duration = Grid.labels.
Proof.
  intros tz now date duration Hd Hnow.
  rewrite generateTimeSlots_cells, <- labels_of_cells. f_equal.
  apply forallb_filter_id. apply forallb_forall. intros [h m] Hc.
  apply In_cells in Hc. simpl fst. simpl snd.
  apply andb_true_intro. split.
  - apply Z.leb_le. rewrite getHours_slot. unfold endHour.
    assert (Hx : 540 <= h * 60 + m + duration <= 1139) by lia.
    revert Hx. generalize (h * 60 + m + duration). intros x Hx.
    rewrite Z.mod_small.
    + apply Z.lt_succ_r. apply Z.div_lt_upper_bound; lia.
    + split; [apply Z.div_pos; lia | apply Z.div_lt_upper_bound; lia].
  - apply Z.ltb_lt. unfold setHours, msPerHour, msPerMinute in *. lia.
Qed.

Lemma generateTimeSlots_full_day_witness :
  generateTimeSlots 0 (utc 2025 1 1 7 0) (utc 2025 1 16 0 0) 45 = Grid.labels.
Proof.
  apply generateTimeSlots_full_day.
  - lia.
  - vm_compute. reflexivity.
Defined.

(** X5.  Submitting a slot the generator returned books the start time the
    generator tested: handleFormSubmit parses the label back into the hour
    and minute of a generated slot on the chosen date, whose label it is, and
    the end time is that start plus the total duration. *)
Theorem submitted_slot_is_a_generated_start :
  forall tz now date duration s,
    In s (generateTimeSlots tz now date duration) ->
    exists t,
      FormSubmit.submittedTimes tz date s duration = Some (t, addMinutes t duration) /\
      In t (generatedSlotStarts tz now date duration) /\
      format_HHmm tz t = s.
Proof.
  intros tz now date duration s Hs.
  rewrite generateTimeSlots_starts in Hs. apply in_map_iff in Hs.
  destruct Hs as (t & Hfmt & Ht). exists t.
  split; [|split; assumption].
  pose proof Ht as Hcell. rewrite generatedSlotStarts_cells in Hcell.
  apply in_map_iff in Hcell. destruct Hcell as ([h m] & Hstart & Hc).
  apply filter_In in Hc. destruct Hc as [Hc _].
  cbn [fst snd] in Hstart. subst t.
  pose proof (format_cell tz date (h, m) Hc) as Hlab. cbn [fst snd] in Hlab.
  rewrite Hlab in Hfmt. subst s.
  unfold Grid.cells in Hc. simpl in Hc.
  repeat (destruct Hc as [Hc | Hc]; [injection Hc as <- <-; reflexivity|]).
  contradiction.
Qed.

Lemma submitted_slot_is_a_generated_start_witness :
  exists t,
    FormSubmit.submittedTimes 0 (utc 2025 1 16 0 0) "09:30" 60
      = Some (t, addMinutes t 60) /\
    In t (generatedSlotStarts 0 (utc 2025 1 16 7 0) (utc 2025 1 16 0 0) 60) /\
    format_HHmm 0 t = "09:30".
Proof.
  apply (submitted_slot_is_a_generated_start 0 (utc 2025 1 16 7 0)).
  vm_compute. now left.
Defined.

(* ================================================================== *)
(** ** The booking form, continued *)

Section MoreBookingFormFacts.
Import BookingForm.
Variable tz : Z.
Variable services : list Service.t.

Lemma includes_In id l : includes id l = true <-> In id l.
Proof.
  unfold includes. rewrite existsb_exists. split.
  - intros (x & Hx & E). apply String.eqb_eq in E. now subst.
  - intros H. exists id. split; [assumption | apply String.eqb_refl].
Qed.

Lemma handle_NoDup ev st :
  NoDup (selectedServices st) -> NoDup (selectedServices (handle ev st)).
Proof.
  intros Hnd. destruct ev; unfold handle, handleNextStep, handlePrevStep;
    simpl;
    repeat match goal with
           | |- context [if ?c then _ else _] => destruct c eqn:?; simpl
           end; try assumption.
  - apply NoDup_snoc; [assumption|].
    rewrite <- includes_In.
    destruct (includes serviceId (selectedServices st)); [discriminate|].
    discriminate.
  - now apply NoDup_filter.
Qed.

Lemma run_NoDup evs : forall st,
  NoDup (selectedServices st) -> NoDup (selectedServices (run tz services evs st)).
Proof.
  induction evs as [|[now ev] evs IH]; intros st H; simpl; [assumption|].
  apply IH. rewrite step_selectedServices. now apply handle_NoDup.
Qed.

(** The handlers and the first effect leave the slot list and, but for the
    calendar, the chosen date alone. *)
Lemma handle_availableSlots ev st :
  availableSlots (totalsEffect services (handle ev st)) = availableSlots st.
Proof.
  unfold totalsEffect, handle, handleServiceToggle, handleNextStep, handlePrevStep.
  destruct ev; simpl;
    repeat match goal with
           | |- context [if ?c then _ else _] => destruct c; simpl
           end; reflexivity.
Qed.

Lemma handle_watchedDate ev st :
  slotDepsChanged ev st (totalsEffect services (handle ev st)) = false ->
  watchedDate (totalsEffect services (handle ev st)) = watchedDate st.
Proof.
  unfold totalsEffect, slotDepsChanged, handle, handleServiceToggle,
    handleNextStep, handlePrevStep.
  destruct ev; simpl; try (intros ->; reflexivity); intros _;
    repeat match goal with
           | |- context [if ?c then _ else _] => destruct c; simpl
           end; reflexivity.
Qed.

Lemma handle_totalDuration ev st :
  totalDuration st = sumDuration services (selectedServices st) ->
  slotDepsChanged ev st (totalsEffect services (handle ev st)) = false ->
  totalDuration (totalsEffect services (handle ev st)) = totalDuration st.
Proof.
  intros Hsync H. destruct ev; simpl in H;
    try (apply orb_false_elim in H; destruct H as [H _];
         apply negb_false_iff, Z.eqb_eq in H; now symmetry).
  unfold handle. rewrite H. simpl. now symmetry.
Qed.

(** The slot list is never out of date with respect to a chosen date and a
    positive total duration: it was generated at the clock reading of one of
    the events handled so far ([seen] lists those readings). *)
Lemma step_fresh_slots now ev st (seen : list Date) :
  totalDuration st = sumDuration services (selectedServices st) ->
  (forall date, watchedDate st = Some date -> 0 < totalDuration st ->
     exists t, In t seen /\
               availableSlots st
               = generateTimeSlots tz t date (totalDuration st)) ->
  forall date, watchedDate (step tz services now ev st) = Some date ->
               0 < totalDuration (step tz services now ev st) ->
    exists t, In t (seen ++ [now])%list /\
              availableSlots (step tz services now ev st)
              = generateTimeSlots tz t date
                  (totalDuration (step tz services now ev st)).
Proof.
  intros Hsync Hinv date. unfold step.
  destruct (slotDepsChanged ev st (totalsEffect services (handle ev st))) eqn:Hch.
  - unfold slotsEffect.
    destruct (watchedDate (totalsEffect services (handle ev st))) as [d0|] eqn:Hd;
      [|rewrite Hd; discriminate].
    destruct (0 <? totalDuration (totalsEffect services (handle ev st))) eqn:Hpos.
    + cbn [watchedDate totalDuration availableSlots set_availableSlots].
      rewrite Hd. intros [= <-] _. exists now. split; [|reflexivity].
      apply in_or_app. right. now left.
    + intros _ H. apply Z.ltb_ge in Hpos. lia.
  - rewrite handle_watchedDate, handle_totalDuration, handle_availableSlots
      by assumption.
    intros Hd Hpos. destruct (Hinv date Hd Hpos) as (t & Hin & Heq).
    exists t. split; [apply in_or_app; now left | exact Heq].
Qed.

Lemma run_fresh_slots evs : forall st (seen : list Date),
  totalDuration st = sumDuration services (selectedServices st) ->
  (forall date, watchedDate st = Some date -> 0 < totalDuration st ->
     exists t, In t seen /\
               availableSlots st
               = generateTimeSlots tz t date (totalDuration st)) ->
  forall date, watchedDate (run tz services evs st) = Some date ->
               0 < totalDuration (run tz services evs st) ->
    exists t, In t (seen ++ map fst evs)%list /\
              availableSlots (run tz services evs st)
              = generateTimeSlots tz t date
                  (totalDuration (run tz services evs st)).
Proof.
  induction evs as [|[now ev] evs IH]; intros st seen Hsync Hinv; simpl.
  - now rewrite app_nil_r.
  - intros date Hd Hpos.
    destruct (IH (step tz services now ev st) (seen ++ [now])%list
                 (proj1 (step_totals tz services now ev st))
                 (step_fresh_slots now ev st seen Hsync Hinv) date Hd Hpos)
      as (t & Hin & Heq).
    exists t. split; [|exact Heq].
    now rewrite <- app_assoc in Hin.
Qed.

(** The two totals do not depend on the order of the selection. *)
Lemma fold_left_add_perm {A} (f : A -> Z) (l l' : list A) :
  Permutation l l' ->
  forall acc, fold_left (fun total x => total + f x) l acc
              = fold_left (fun total x => total + f x) l' acc.
Proof.
  induction 1 as [|x l l' _ IH|x y l|l l' l'' _ IH1 _ IH2]; intros acc; simpl.
  - reflexivity.
  - apply IH.
  - f_equal. lia.
  - now rewrite IH1.
Qed.

Lemma sumDuration_perm sel sel' :
  Permutation sel sel' -> sumDuration services sel = sumDuration services sel'.
Proof.
  intros Hp. unfold sumDuration.
  apply (fold_left_add_perm
           (fun serviceId => match findService services serviceId with
                             | Some service => Service.durationMinutes service
                             | None => 0
                             end)).
  exact Hp.
Qed.

End MoreBookingFormFacts.

(** X6.  Whatever the user clicks, the selection never holds a service id
    twice: a card adds its id only when it is absent and removes every
    occurrence otherwise. *)
Theorem selection_never_holds_duplicates :
  forall tz services evs,
    NoDup (BookingForm.selectedServices
             (BookingForm.run tz services evs BookingForm.initial)).
Proof.
  intros tz services evs. apply run_NoDup. constructor.
Qed.

(** X7.  The total duration depends on which services are selected, not on
    the order in which they were selected: two selections holding the same
    service ids add up to the same duration, and two sequences of events that
    leave the same ids selected leave the same total duration on display. *)
Theorem total_duration_ignores_selection_order :
  forall services,
    (forall sel sel',
        Permutation sel sel' ->
        BookingForm.sumDuration services sel = BookingForm.sumDuration services sel') /\
    (forall tz evs evs',
        let st := BookingForm.run tz services evs BookingForm.initial in
        let st' := BookingForm.run tz services evs' BookingForm.initial in
        Permutation (BookingForm.selectedServices st) (BookingForm.selectedServices st') ->
        BookingForm.totalDuration st = BookingForm.totalDuration st').
Proof.
  intros services. split.
  - intros sel sel'. apply sumDuration_perm.
  - intros tz evs evs' st st' Hp.
    destruct (run_totals tz services evs BookingForm.initial) as [Hd _];
      [reflexivity | reflexivity |].
    destruct (run_totals tz services evs' BookingForm.initial) as [Hd' _];
      [reflexivity | reflexivity |].
    unfold st, st'. rewrite Hd, Hd'. now apply sumDuration_perm.
Qed.

Lemma total_duration_ignores_selection_order_witness :
  let coupe := Service.mk "s1" "salon" "Coupe" None 30 2500 None (Some false)
                          None None None (Some true) None in
  let couleur := Service.mk "s2" "salon" "Couleur" None 90 6550 None (Some true)
                            None None None (Some true) None in
  let now := utc 2025 1 1 7 0 in
  let st := BookingForm.run 0 [coupe; couleur]
              [(now, BookingForm.ClickService "s1"); (now, BookingForm.ClickService "s2")]
              BookingForm.initial in
  let st' := BookingForm.run 0 [coupe; couleur]
               [(now, BookingForm.ClickService "s2"); (now, BookingForm.ClickService "s1")]
               BookingForm.initial in
  BookingForm.selectedServices st = ["s1"; "s2"] /\
  BookingForm.selectedServices st' = ["s2"; "s1"] /\
  BookingForm.totalDuration st = 120 /\
  BookingForm.totalDuration st = BookingForm.totalDuration st'.
Proof.
  intros coupe couleur now st st'.
  split; [reflexivity|]. split; [reflexivity|]. split; [reflexivity|].
  apply (proj2 (total_duration_ignores_selection_order [coupe; couleur]) 0
           [(now, BookingForm.ClickService "s1"); (now, BookingForm.ClickService "s2")]
           [(now, BookingForm.ClickService "s2"); (now, BookingForm.ClickService "s1")]).
  apply perm_swap.
Defined.

(** X8.  In every state the form reaches, when a date is chosen and the total
    duration is positive the slot list is the one generateTimeSlots returns
    for exactly this date and this total duration at the clock reading of one
    of the events handled so far: the list is never left over from another
    date or another positive duration, and it is never one that was not
    generated. *)
Theorem slots_match_current_date_and_duration :
  forall tz services evs date,
    let st := BookingForm.run tz services evs BookingForm.initial in
    BookingForm.watchedDate st = Some date ->
    0 < BookingForm.totalDuration st ->
    exists t, In t (map fst evs) /\
              BookingForm.availableSlots st
              = generateTimeSlots tz t date (BookingForm.totalDuration st).
Proof.
  intros tz services evs date st. unfold st.
  apply (run_fresh_slots tz services evs BookingForm.initial []); [reflexivity|].
  intros d H. discriminate H.
Qed.

Lemma slots_match_current_date_and_duration_witness :
  let coupe := Service.mk "s1" "salon" "Coupe" None 30 2500 None (Some false)
                          None None None (Some true) None in
  let now := utc 2025 1 1 7 0 in
  let date := utc 2025 1 16 0 0 in
  let evs := [(now, BookingForm.ClickService "s1"); (now, BookingForm.ClickNext);
              (now, BookingForm.ClickNext);
              (now, BookingForm.ChooseDate (Some date))] in
  let st := BookingForm.run 0 [coupe] evs BookingForm.initial in
  List.length (BookingForm.availableSlots st) = 18%nat /\
  exists t, In t (map fst evs) /\
            BookingForm.availableSlots st
            = generateTimeSlots 0 t date (BookingForm.totalDuration st).
Proof.
  intros coupe now date evs st. split; [reflexivity|].
  apply (slots_match_current_date_and_duration 0 [coupe] evs date).
  - reflexivity.
  - reflexivity.
Defined.

(* ================================================================== *)
(** ** The catalog and the metrics under updates *)

Section MoreStorageFacts.
Import Storage.

Lemma filter_map_commute {A} (p : A -> bool) (g : A -> A) (l : list A) :
  (forall a, p (g a) = p a) -> filter p (map g l) = map g (filter p l).
Proof.
  intros H. induction l as [|a l IH]; simpl; [reflexivity|].
  rewrite H. destruct (p a); simpl; now rewrite IH.
Qed.

Lemma fold_left_map_ext {A B C} (f : C -> B -> C) (f' : C -> A -> C) (g : A -> B) l :
  (forall acc a, f acc (g a) = f' acc a) ->
  forall acc, fold_left f (map g l) acc = fold_left f' l acc.
Proof.
  intros H. induction l as [|a l IH]; intros acc; simpl; [reflexivity|].
  now rewrite H, IH.
Qed.

Lemma flat_map_map_ext {A B} (f : A -> list B) (g : A -> A) l :
  (forall a, f (g a) = f a) -> flat_map f (map g l) = flat_map f l.
Proof.
  intros H. induction l as [|a l IH]; simpl; [reflexivity|]. now rewrite H, IH.
Qed.

Lemma len_map {A B} (g : A -> B) l : len (map g l) = len l.
Proof. unfold len. now rewrite length_map. Qed.

(** Rewriting every appointment without touching its salon, start time or
    service ids changes neither the number of appointments in a range nor the
    top services. *)
Lemma metrics_frame_booking (g : Appointment.t -> Appointment.t) salonId startDate endDate db :
  (forall a, Appointment.salonId (g a) = Appointment.salonId a) ->
  (forall a, Appointment.startTime (g a) = Appointment.startTime a) ->
  (forall a, Appointment.serviceIds (g a) = Appointment.serviceIds a) ->
  let m := getSalonMetrics salonId startDate endDate db in
  let m' := getSalonMetrics salonId startDate endDate
              (withAppointments (map g (appointments db)) db) in
  totalAppointments m' = totalAppointments m /\
  topServices m' = topServices m /\
  averageRating m' = averageRating m.
Proof.
  intros Hs Ht Hi m m'.
  assert (Hr : forall a, inRange salonId startDate endDate (g a)
                         = inRange salonId startDate endDate a).
  { intros a. unfold inRange. now rewrite Hs, Ht. }
  split; [|split].
  - unfold m', m, getSalonMetrics. cbn [totalAppointments withAppointments appointments].
    now rewrite filter_map_commute, len_map.
  - unfold m', m. rewrite !topServices_unfold.
    cbn [withAppointments appointments services].
    rewrite filter_map_commute by assumption.
    now rewrite flat_map_map_ext.
  - reflexivity.
Qed.

(** The names counted are kept as well. *)
Lemma countedNames_frame (g : Appointment.t -> Appointment.t) salonId startDate endDate db :
  (forall a, Appointment.salonId (g a) = Appointment.salonId a) ->
  (forall a, Appointment.startTime (g a) = Appointment.startTime a) ->
  (forall a, Appointment.serviceIds (g a) = Appointment.serviceIds a) ->
  Spec.countedNames salonId startDate endDate
    (withAppointments (map g (appointments db)) db)
  = Spec.countedNames salonId startDate endDate db.
Proof.
  intros Hs Ht Hi.
  assert (Hr : forall a, inRange salonId startDate endDate (g a)
                         = inRange salonId startDate endDate a).
  { intros a. unfold inRange. now rewrite Hs, Ht. }
  unfold Spec.countedNames, Spec.countedName.
  cbn [withAppointments appointments services].
  rewrite (filter_map_commute _ g _ Hr).
  apply flat_map_map_ext. intros a. now rewrite Hi.
Qed.

(** If moreover the status and the amount are kept, all the metrics of the
    tables as modelled are. *)
Lemma metrics_frame_status (g : Appointment.t -> Appointment.t) salonId startDate endDate db :
  (forall a, Appointment.salonId (g a) = Appointment.salonId a) ->
  (forall a, Appointment.startTime (g a) = Appointment.startTime a) ->
  (forall a, Appointment.serviceIds (g a) = Appointment.serviceIds a) ->
  (forall a, Appointment.status (g a) = Appointment.status a) ->
  (forall a, Appointment.totalAmount (g a) = Appointment.totalAmount a) ->
  getSalonMetrics salonId startDate endDate
    (withAppointments (map g (appointments db)) db)
  = getSalonMetrics salonId startDate endDate db.
Proof.
  intros Hs Ht Hi Hst Ha.
  destruct (metrics_frame_booking g salonId startDate endDate db Hs Ht Hi)
    as (Htot & Htop & Havg).
  assert (Hr : forall a, inRange salonId startDate endDate (g a)
                         = inRange salonId startDate endDate a).
  { intros a. unfold inRange. now rewrite Hs, Ht. }
  assert (Hh : forall s a, hasStatus s (g a) = hasStatus s a).
  { intros s a. unfold hasStatus. now rewrite Hst. }
  assert (Hno : noShows (getSalonMetrics salonId startDate endDate
                           (withAppointments (map g (appointments db)) db))
                = noShows (getSalonMetrics salonId startDate endDate db)).
  { unfold getSalonMetrics. cbn [noShows withAppointments appointments].
    rewrite (filter_map_commute _ g _ Hr), (filter_map_commute _ g _ (Hh _)).
    apply len_map. }
  assert (Hco : completedAppointments
                  (getSalonMetrics salonId startDate endDate
                     (withAppointments (map g (appointments db)) db))
                = completedAppointments (getSalonMetrics salonId startDate endDate db)).
  { unfold getSalonMetrics. cbn [completedAppointments withAppointments appointments].
    rewrite (filter_map_commute _ g _ Hr), (filter_map_commute _ g _ (Hh _)).
    apply len_map. }
  assert (Hrev : totalRevenue
                   (getSalonMetrics salonId startDate endDate
                      (withAppointments (map g (appointments db)) db))
                 = totalRevenue (getSalonMetrics salonId startDate endDate db)).
  { unfold getSalonMetrics. cbn [totalRevenue withAppointments appointments].
    rewrite (filter_map_commute _ g _ Hr), (filter_map_commute _ g _ (Hh _)).
    apply fold_left_map_ext. intros acc a. now rewrite Ha. }
  revert Htot Htop Havg Hno Hco Hrev.
  generalize (getSalonMetrics salonId startDate endDate
                (withAppointments (map g (appointments db)) db)).
  generalize (getSalonMetrics salonId startDate endDate db).
  intros [t r n c a s] [t' r' n' c' a' s']. simpl. congruence.
Qed.

(** Deactivating rows of the catalog: what the catalog queries see. *)
Lemma services_seen_after_delete id salonId l :
  map (fun s => (Service.id s, Service.name s))
      (filter (fun s => String.eqb (Service.salonId s) salonId)
              (updateWhere (fun s => String.eqb (Service.id s) id)
                           (Service.set_isActive (Some false)) l))
  = map (fun s => (Service.id s, Service.name s))
        (filter (fun s => String.eqb (Service.salonId s) salonId) l).
Proof.
  induction l as [|s l IH]; simpl; [reflexivity|].
  destruct (String.eqb (Service.id s) id); simpl;
    destruct (String.eqb (Service.salonId s) salonId); simpl; now rewrite IH.
Qed.



End MoreStorageFacts.


(** X11.  Deleting a service or a stylist changes no figure of
    getSalonMetrics: the appointments that list the service are still counted
    under its name. *)
Theorem metrics_survive_deletes :
  forall id salonId startDate endDate db,
    Storage.getSalonMetrics salonId startDate endDate (Storage.deleteService id db)
      = Storage.getSalonMetrics salonId startDate endDate db /\
    Storage.getSalonMetrics salonId startDate endDate (Storage.deleteStylist id db)
      = Storage.getSalonMetrics salonId startDate endDate db.
Proof.
  intros id salonId startDate endDate db. split; [|reflexivity].
  unfold Storage.getSalonMetrics, Storage.deleteService.
  cbn [Storage.services Storage.appointments Storage.reviews].
  now rewrite services_seen_after_delete.
Qed.

Section MoreMetricsFacts.
Import Storage.

Lemma updateWhere_map {A} (cond : A -> bool) (set : A -> A) (rows : list A) :
  updateWhere cond set rows = map (fun row => if cond row then set row else row) rows.
Proof. reflexivity. Qed.

(** Filtering on two statuses that differ selects disjoint rows. *)
Lemma status_counts_disjoint (s1 s2 : string) (l : list Appointment.t) :
  s1 <> s2 ->
  len (filter (hasStatus s1) l) + len (filter (hasStatus s2) l) <= len l.
Proof.
  intros Hne.
  assert (Hn : (List.length (filter (hasStatus s1) l)
                + List.length (filter (hasStatus s2) l) <= List.length l)%nat).
  { induction l as [|a l IH]; cbn [filter List.length]; [lia|].
    destruct (hasStatus s1 a) eqn:E1; destruct (hasStatus s2 a) eqn:E2;
      cbn [List.length]; try lia.
    unfold hasStatus in E1, E2. apply String.eqb_eq in E1, E2. congruence. }
  unfold len. lia.
Qed.

Lemma len_nonneg {A} (l : list A) : 0 <= len l.
Proof. unfold len. lia. Qed.

(** A row-wise rewriting that can only take rows out of a status. *)
Lemma status_count_decreases (s : string) (g : Appointment.t -> Appointment.t) l :
  (forall a, hasStatus s (g a) = true -> hasStatus s a = true) ->
  len (filter (hasStatus s) (map g l)) <= len (filter (hasStatus s) l).
Proof.
  intros H.
  assert (Hn : (List.length (filter (hasStatus s) (map g l))
                <= List.length (filter (hasStatus s) l))%nat).
  { induction l as [|a l IH]; cbn [map filter List.length]; [lia|].
    destruct (hasStatus s (g a)) eqn:E.
    - rewrite (H a E). cbn [List.length]. lia.
    - destruct (hasStatus s a); cbn [List.length]; lia. }
  unfold len. lia.
Qed.

Lemma Math_round_bounds (x : Q) (lo hi : Z) :
  (inject_Z lo <= x)%Q -> (x <= inject_Z hi)%Q ->
  (inject_Z lo <= Js.Math_round x)%Q /\ (Js.Math_round x <= inject_Z hi)%Q.
Proof.
  intros Hlo Hhi. unfold Js.Math_round. rewrite <- !Zle_Qle. split.
  - rewrite <- (Qfloor_Z lo). apply Qfloor_resp_le. lra.
  - apply Z.lt_succ_r. rewrite Zlt_Qlt.
    eapply Qle_lt_trans; [apply Qfloor_le|].
    unfold Z.succ. rewrite inject_Z_plus. change (inject_Z 1) with 1%Q. lra.
Qed.

(** The sum of the ratings, as an integer. *)
Lemma rating_sum_integer (l : list Review.t) :
  (fold_left (fun sum review => sum + inject_Z (Review.rating review)) l 0
   == inject_Z (fold_right (fun review s => (Review.rating review + s)%Z) 0%Z l))%Q.
Proof.
  rewrite (fold_left_sumQ (fun review => inject_Z (Review.rating review))).
  induction l as [|r l IH]; simpl.
  - reflexivity.
  - rewrite inject_Z_plus. simpl in IH. lra.
Qed.

Lemma rating_sum_bounds (lo hi : Z) (l : list Review.t) :
  Forall (fun r => lo <= Review.rating r <= hi) l ->
  lo * len l <= fold_right (fun review s => Review.rating review + s) 0 l <= hi * len l.
Proof.
  unfold len. induction 1 as [|r l Hr _ IH]; cbn [List.length fold_right]; [lia|].
  rewrite Nat2Z.inj_succ. nia.
Qed.

End MoreMetricsFacts.

(** X12.  The payment webhook never changes the status of an appointment,
    whatever the event, and so none of the counts of getSalonMetrics: the
    numbers of appointments, of completed appointments and of no-shows, the
    average rating and the number of times each service name is counted are
    as before.  On a payment_intent.succeeded event that names an
    appointment, every row of that id comes out with paymentStatus 'paid' and
    the id of the payment intent. *)
Theorem payment_webhook_marks_paid_only :
  forall now event db,
    (forall salonId startDate endDate,
        let m := Storage.getSalonMetrics salonId startDate endDate db in
        let m' := Storage.getSalonMetrics salonId startDate endDate
                    (Lifecycle.stripeWebhook now event db) in
        Storage.totalAppointments m' = Storage.totalAppointments m /\
        Storage.completedAppointments m' = Storage.completedAppointments m /\
        Storage.noShows m' = Storage.noShows m /\
        Storage.averageRating m' = Storage.averageRating m /\
        forall name,
          Spec.occurrences name
            (Spec.countedNames salonId startDate endDate
               (Lifecycle.stripeWebhook now event db))
          = Spec.occurrences name
              (Spec.countedNames salonId startDate endDate db)) /\
    Forall2 (fun a a' => Appointment.status a' = Appointment.status a)
            (Storage.appointments db)
            (Storage.appointments (Lifecycle.stripeWebhook now event db)) /\
    (forall appointmentId,
        Lifecycle.eventType event = "payment_intent.succeeded" ->
        Lifecycle.metadataAppointmentId event = Some appointmentId ->
        appointmentId <> "" ->
        Forall2 (fun a a' =>
                   if Storage.hasId appointmentId a
                   then Appointment.paymentStatus a' = Some "paid" /\
                        Appointment.stripePaymentIntentId a'
                          = Some (Lifecycle.paymentIntentId event)
                   else a' = a)
                (Storage.appointments db)
                (Storage.appointments (Lifecycle.stripeWebhook now event db))).
Proof.
  intros now event db.
  assert (Hid : forall l : list Appointment.t,
             Forall2 (fun a a' => Appointment.status a' = Appointment.status a) l l).
  { induction l; constructor; auto. }
  split; [|split].
  - intros salonId startDate endDate.
    assert (Hframe :
              Storage.getSalonMetrics salonId startDate endDate
                (Lifecycle.stripeWebhook now event db)
              = Storage.getSalonMetrics salonId startDate endDate db /\
              Spec.countedNames salonId startDate endDate
                (Lifecycle.stripeWebhook now event db)
              = Spec.countedNames salonId startDate endDate db).
    { unfold Lifecycle.stripeWebhook.
      destruct (String.eqb (Lifecycle.eventType event) "payment_intent.succeeded");
        [|split; reflexivity].
      destruct (Lifecycle.metadataAppointmentId event) as [appointmentId|];
        [|split; reflexivity].
      destruct (String.eqb appointmentId ""); [split; reflexivity|].
      unfold Storage.updateAppointment. cbn [fst]. rewrite updateWhere_map.
      split; [apply metrics_frame_status | apply countedNames_frame];
        intros a; destruct (Storage.hasId appointmentId a); reflexivity. }
    destruct Hframe as [Hm Hn]. cbv zeta. rewrite Hm, Hn.
    repeat split; reflexivity.
  - unfold Lifecycle.stripeWebhook.
    destruct (String.eqb (Lifecycle.eventType event) "payment_intent.succeeded");
      [|apply Hid].
    destruct (Lifecycle.metadataAppointmentId event) as [appointmentId|];
      [|apply Hid].
    destruct (String.eqb appointmentId ""); [apply Hid|].
    simpl. eapply Forall2_weaken; [|apply updateWhere_Forall2].
    intros a a' ->. destruct (Storage.hasId appointmentId a); reflexivity.
  - intros appointmentId Htype Hmeta Hne. unfold Lifecycle.stripeWebhook.
    rewrite Htype, Hmeta. simpl String.eqb at 1. cbv iota.
    apply String.eqb_neq in Hne. rewrite Hne.
    simpl. eapply Forall2_weaken; [|apply updateWhere_Forall2].
    intros a a' ->. destruct (Storage.hasId appointmentId a); [|reflexivity].
    split; reflexivity.
Qed.

Lemma payment_webhook_marks_paid_only_witness :
  let apt id status := Appointment.mk id "salon" "c1" None ["s1"]
               (utc 2025 1 16 9 0) (utc 2025 1 16 10 0) status (Some "form")
               5000 (Some 1000) (Some "pending") None None None None None None None in
  let db := Storage.mkDb [] [] [apt "a1" "pending"; apt "a2" "confirmed"] [] in
  let event := Lifecycle.mkEvent "payment_intent.succeeded" "pi_1" (Some "a1") in
  Forall2 (fun a a' =>
             if Storage.hasId "a1" a
             then Appointment.paymentStatus a' = Some "paid" /\
                  Appointment.stripePaymentIntentId a' = Some "pi_1"
             else a' = a)
          (Storage.appointments db)
          (Storage.appointments (Lifecycle.stripeWebhook (utc 2025 1 15 8 0) event db)).
Proof.
  intros apt db event.
  apply (proj2 (proj2 (payment_webhook_marks_paid_only (utc 2025 1 15 8 0) event db))
           "a1").
  - reflexivity.
  - reflexivity.
  - discriminate.
Defined.

(** X13.  Cancelling an appointment leaves the number of appointments of any
    range, the average rating and the number of times each service name is
    counted as they were, and can only lower the numbers of completed
    appointments and of no-shows. *)
Theorem cancellation_keeps_the_counts :
  forall now id reason db salonId startDate endDate,
    let m := Storage.getSalonMetrics salonId startDate endDate db in
    let m' := Storage.getSalonMetrics salonId startDate endDate
                (fst (Storage.cancelAppointment now id reason db)) in
    Storage.totalAppointments m' = Storage.totalAppointments m /\
    Storage.averageRating m' = Storage.averageRating m /\
    Storage.completedAppointments m' <= Storage.completedAppointments m /\
    Storage.noShows m' <= Storage.noShows m /\
    forall name,
      Spec.occurrences name
        (Spec.countedNames salonId startDate endDate
           (fst (Storage.cancelAppointment now id reason db)))
      = Spec.occurrences name (Spec.countedNames salonId startDate endDate db).
Proof.
  intros now id reason db salonId startDate endDate m m'.
  set (g := fun a => if Storage.hasId id a
                     then Storage.setAppointment (Storage.cancellation now reason) now a
                     else a).
  assert (Hs : forall a, Appointment.salonId (g a) = Appointment.salonId a)
    by (intros a; unfold g; destruct (Storage.hasId id a); reflexivity).
  assert (Ht : forall a, Appointment.startTime (g a) = Appointment.startTime a)
    by (intros a; unfold g; destruct (Storage.hasId id a); reflexivity).
  assert (Hi : forall a, Appointment.serviceIds (g a) = Appointment.serviceIds a)
    by (intros a; unfold g; destruct (Storage.hasId id a); reflexivity).
  assert (Hr : forall a, Storage.inRange salonId startDate endDate (g a)
                         = Storage.inRange salonId startDate endDate a)
    by (intros a; unfold Storage.inRange; now rewrite Hs, Ht).
  assert (Hst : forall s a, s <> "cancelled" ->
                  Storage.hasStatus s (g a) = true -> Storage.hasStatus s a = true).
  { intros s a Hne. unfold g. destruct (Storage.hasId id a); [|auto].
    unfold Storage.hasStatus. intros E.
    change (Appointment.status
              (Storage.setAppointment (Storage.cancellation now reason) now a))
      with "cancelled" in E.
    apply String.eqb_eq in E. congruence. }
  destruct (metrics_frame_booking g salonId startDate endDate db Hs Ht Hi)
    as (Htot & _ & Havg).
  split; [exact Htot|]. split; [exact Havg|]. split; [|split].
  - unfold m', m, Storage.getSalonMetrics, Storage.cancelAppointment.
    cbn [fst Storage.completedAppointments Storage.withAppointments Storage.appointments].
    rewrite updateWhere_map. fold g. rewrite (filter_map_commute _ g _ Hr).
    apply status_count_decreases. intros a. apply Hst. discriminate.
  - unfold m', m, Storage.getSalonMetrics, Storage.cancelAppointment.
    cbn [fst Storage.noShows Storage.withAppointments Storage.appointments].
    rewrite updateWhere_map. fold g. rewrite (filter_map_commute _ g _ Hr).
    apply status_count_decreases. intros a. apply Hst. discriminate.
  - intros name. unfold Storage.cancelAppointment. cbn [fst].
    rewrite updateWhere_map. fold g.
    now rewrite (countedNames_frame g salonId startDate endDate db Hs Ht Hi).
Qed.

(** X14.  In the metrics of any salon and range the counts are consistent:
    no-shows and completed appointments are disjoint parts of the total, and
    the completion rate shown on the reports page lies between 0 and 100. *)
Theorem metrics_counts_are_consistent :
  forall salonId startDate endDate db,
    let m := Storage.getSalonMetrics salonId startDate endDate db in
    0 <= Storage.noShows m /\
    0 <= Storage.completedAppointments m /\
    Storage.noShows m + Storage.completedAppointments m <= Storage.totalAppointments m /\
    (0 <= Reports.completionRate m)%Q /\
    (Reports.completionRate m <= 100)%Q.
Proof.
  intros salonId startDate endDate db m.
  assert (H0 : 0 <= Storage.noShows m) by apply len_nonneg.
  assert (H1 : 0 <= Storage.completedAppointments m) by apply len_nonneg.
  assert (H2 : Storage.noShows m + Storage.completedAppointments m
               <= Storage.totalAppointments m).
  { apply status_counts_disjoint. discriminate. }
  repeat split; try assumption.
  - unfold Reports.completionRate.
    destruct (negb (Storage.completedAppointments m =? 0)
              && negb (Storage.totalAppointments m =? 0)) eqn:E; [|lra].
    apply andb_prop in E. destruct E as [Ec Et].
    apply negb_true_iff, Z.eqb_neq in Ec. apply negb_true_iff, Z.eqb_neq in Et.
    apply (Math_round_bounds _ 0 100).
    + apply Qmult_le_0_compat; [|lra].
      apply Qle_shift_div_l; [rewrite <- (Zlt_Qlt 0); lia|].
      rewrite Qmult_0_l. rewrite <- (Zle_Qle 0). lia.
    + assert (Hq : (inject_Z (Storage.completedAppointments m)
                    / inject_Z (Storage.totalAppointments m) <= 1)%Q).
      { apply Qle_shift_div_r; [rewrite <- (Zlt_Qlt 0); lia|].
        rewrite Qmult_1_l. rewrite <- Zle_Qle. lia. }
      change (inject_Z 100) with 100%Q. lra.
  - unfold Reports.completionRate.
    destruct (negb (Storage.completedAppointments m =? 0)
              && negb (Storage.totalAppointments m =? 0)) eqn:E; [|lra].
    apply andb_prop in E. destruct E as [Ec Et].
    apply negb_true_iff, Z.eqb_neq in Ec. apply negb_true_iff, Z.eqb_neq in Et.
    apply (Math_round_bounds _ 0 100).
    + apply Qmult_le_0_compat; [|lra].
      apply Qle_shift_div_l; [rewrite <- (Zlt_Qlt 0); lia|].
      rewrite Qmult_0_l. rewrite <- (Zle_Qle 0). lia.
    + assert (Hq : (inject_Z (Storage.completedAppointments m)
                    / inject_Z (Storage.totalAppointments m) <= 1)%Q).
      { apply Qle_shift_div_r; [rewrite <- (Zlt_Qlt 0); lia|].
        rewrite Qmult_1_l. rewrite <- Zle_Qle. lia. }
      change (inject_Z 100) with 100%Q. lra.
Qed.

(** X15.  When the salon has at least one review and every review of the
    salon has a rating from 1 to 5, averageRating is a number from 1 to 5. *)
Theorem average_rating_within_the_stars :
  forall salonId startDate endDate db,
    let salonReviews :=
      filter (fun r => String.eqb (Review.salonId r) salonId) (Storage.reviews db) in
    salonReviews <> [] ->
    Forall (fun r => 1 <= Review.rating r <= 5) salonReviews ->
    exists q,
      Storage.averageRating (Storage.getSalonMetrics salonId startDate endDate db)
        = Some q /\
      (1 <= q)%Q /\ (q <= 5)%Q.
Proof.
  intros salonId startDate endDate db salonReviews Hne Hall.
  unfold Storage.getSalonMetrics. cbn [Storage.averageRating]. fold salonReviews.
  assert (Hpos : 0 < Storage.len salonReviews).
  { unfold Storage.len. destruct salonReviews; [contradiction | simpl; lia]. }
  apply Z.ltb_lt in Hpos. rewrite Hpos, (div_by_length _ _ Hpos).
  apply Z.ltb_lt in Hpos.
  eexists. split; [reflexivity|].
  pose proof (rating_sum_bounds 1 5 salonReviews Hall) as [Hlo Hhi].
  pose proof (rating_sum_integer salonReviews) as Hsum.
  assert (Hn : (0 < inject_Z (Storage.len salonReviews))%Q)
    by (rewrite <- (Zlt_Qlt 0); lia).
  split.
  - apply Qle_shift_div_l; [assumption|]. rewrite Hsum, Qmult_1_l.
    rewrite <- Zle_Qle. lia.
  - apply Qle_shift_div_r; [assumption|]. rewrite Hsum.
    change 5%Q with (inject_Z 5). rewrite <- inject_Z_mult, <- Zle_Qle. lia.
Qed.

Lemma average_rating_within_the_stars_witness :
  let review n := Review.mk "r" "salon" "c1" None None n None (Some true) None None in
  exists q,
    Storage.averageRating
      (Storage.getSalonMetrics "salon" 0 1 (Storage.mkDb [] [] [] [review 4; review 5]))
      = Some q /\
    (1 <= q)%Q /\ (q <= 5)%Q.
Proof.
  intros review.
  apply (average_rating_within_the_stars "salon" 0 1
           (Storage.mkDb [] [] [] [review 4; review 5])).
  - discriminate.
  - repeat constructor; simpl; lia.
Defined.

(* ================================================================== *)
(** ** The top services, continued *)

Section TopServicesFacts.
Import Storage.

Lemma get_Some_In {V} k (v : V) m : Js.Map.get k m = Some v -> In (k, v) m.
Proof.
  induction m as [|[k0 v0] m IH]; simpl; [discriminate|].
  destruct (String.eqb k0 k) eqn:E.
  - apply String.eqb_eq in E. intros [= ->]. subst. now left.
  - intros H. right. now apply IH.
Qed.

Lemma get_ofEntries_In {V} k (v : V) es : forall m,
  Js.Map.get k (fold_left (fun m e => Js.Map.set (fst e) (snd e) m) es m) = Some v ->
  In (k, v) es \/ Js.Map.get k m = Some v.
Proof.
  induction es as [|[k0 v0] es IH]; intros m H; simpl in *; [now right|].
  apply IH in H. destruct H as [H|H]; [left; now right|].
  rewrite get_set in H. destruct (String.eqb k0 k) eqn:E; [|now right].
  apply String.eqb_eq in E. injection H as ->. subst. left. now left.
Qed.

Lemma keys_countServices serviceMap ids : forall m k,
  In k (map fst (fold_left (countService serviceMap) ids m)) ->
  In k (map fst m) \/
  In k (map (fun serviceId =>
               Js.orString (Js.Map.get serviceId serviceMap) "Unknown Service") ids).
Proof.
  induction ids as [|i ids IH]; intros m k H; simpl in *; [now left|].
  apply IH in H. destruct H as [H|H]; [|right; now right].
  unfold countService in H.
  set (name := Js.orString (Js.Map.get i serviceMap) "Unknown Service") in *.
  destruct (keys_set name (Storage.orElse (Js.Map.get name m) 0 + 1) m) as [Hin Hout].
  destruct (in_dec string_dec name (map fst m)) as [Hi|Hn].
  - rewrite (Hin Hi) in H. now left.
  - rewrite (Hout Hn) in H. apply in_app_or in H. destruct H as [H|[H|[]]].
    + now left.
    + right. left. exact H.
Qed.

(** The names counted, as the names of the service ids in one pass. *)
Lemma countedNames_ids salonId startDate endDate db :
  Spec.countedNames salonId startDate endDate db
  = map (Spec.countedName salonId db)
        (flat_map Appointment.serviceIds
                  (filter (inRange salonId startDate endDate) (appointments db))).
Proof. unfold Spec.countedNames. now rewrite map_flat_map_opt. Qed.

(** The entries of the histogram before the sort: one per name counted, with
    its number of occurrences. *)
Lemma histogram_entry salonId startDate endDate db name c :
  In (name, c)
     (fold_left
        (countService
           (Js.Map.ofEntries
              (map (fun s => (Service.id s, Service.name s))
                   (filter (fun s => String.eqb (Service.salonId s) salonId)
                           (services db)))))
        (flat_map Appointment.serviceIds
                  (filter (inRange salonId startDate endDate) (appointments db)))
        Js.Map.empty) ->
  c = Spec.occurrences name (Spec.countedNames salonId startDate endDate db) /\
  In name (Spec.countedNames salonId startDate endDate db).
Proof.
  intros Hin. rewrite countedNames_ids. split.
  - apply In_get in Hin; [|apply NoDup_countServices; constructor].
    pose proof (get_countServices
                  (Js.Map.ofEntries
                     (map (fun s => (Service.id s, Service.name s))
                          (filter (fun s => String.eqb (Service.salonId s) salonId)
                                  (services db))))
                  (flat_map Appointment.serviceIds
                            (filter (inRange salonId startDate endDate) (appointments db)))
                  Js.Map.empty name) as Hc.
    rewrite Hin in Hc. simpl in Hc. exact Hc.
  - apply (in_map fst) in Hin. simpl in Hin.
    apply keys_countServices in Hin. destruct Hin as [[]|Hin]. exact Hin.
Qed.

(** An entry of topServices is an entry of the histogram. *)
Lemma top_entry_in_histogram salonId startDate endDate db e :
  In e (topServices (getSalonMetrics salonId startDate endDate db)) ->
  count e = Spec.occurrences (serviceName e)
              (Spec.countedNames salonId startDate endDate db) /\
  In (serviceName e) (Spec.countedNames salonId startDate endDate db).
Proof.
  rewrite topServices_unfold. intros He.
  apply firstn_incl in He. apply (Permutation_in _ (sort_perm _)) in He.
  apply in_map_iff in He. destruct He as ([name c] & <- & Hin). simpl.
  now apply histogram_entry.
Qed.

Lemma occurrences_pos name names : In name names -> 1 <= Spec.occurrences name names.
Proof.
  intros H. unfold Spec.occurrences.
  apply (count_occ_In string_dec) in H. lia.
Qed.

(** A name counted is "Unknown Service" or the name of a service of the salon. *)
Lemma countedName_known salonId db serviceId :
  Spec.countedName salonId db serviceId = "Unknown Service" \/
  exists s, In s (services db) /\ Service.salonId s = salonId /\
            Service.name s = Spec.countedName salonId db serviceId.
Proof.
  unfold Spec.countedName, Js.orString.
  destruct (Js.Map.get serviceId _) as [v|] eqn:Hget; [|now left].
  destruct (String.eqb v ""); [now left|]. right.
  unfold Js.Map.ofEntries in Hget. apply get_ofEntries_In in Hget.
  destruct Hget as [Hin|Hget]; [|discriminate].
  apply in_map_iff in Hin. destruct Hin as (s & Heq & Hs).
  injection Heq as _ Hname. apply filter_In in Hs. destruct Hs as [Hs Hsalon].
  apply String.eqb_eq in Hsalon. exists s. auto.
Qed.

Lemma NoDup_firstn {A} n (l : list A) : NoDup l -> NoDup (firstn n l).
Proof.
  intros H. rewrite <- (firstn_skipn n l) in H. now apply NoDup_app_remove_r in H.
Qed.

(** In a list in descending order, what comes first is at least what comes
    later. *)
Lemma sorted_prefix_dominates l1 : forall l2 x y,
  StronglySorted Spec.descending (l1 ++ l2) ->
  In x l1 -> In y l2 -> count y <= count x.
Proof.
  induction l1 as [|a l1 IH]; intros l2 x y Hs Hx Hy; [contradiction|].
  simpl in Hs. inversion Hs as [|? ? Hs' Hall]; subst.
  destruct Hx as [->|Hx].
  - rewrite Forall_forall in Hall. apply Hall. apply in_or_app. now right.
  - now apply (IH l2).
Qed.

(** Occurrences in the names of a list of appointments, each of which lists a
    name at most once. *)
Lemma occurrences_flat_map (f : Appointment.t -> list string) name l :
  (forall a, In a l -> NoDup (f a)) ->
  Spec.occurrences name (flat_map f l) <= len l.
Proof.
  intros H. unfold Spec.occurrences, len.
  induction l as [|a l IH]; cbn [flat_map List.length]; [simpl; lia|].
  rewrite count_occ_app, Nat2Z.inj_add, Nat2Z.inj_succ.
  assert (Ha : (count_occ string_dec (f a) name <= 1)%nat).
  { apply NoDup_count_occ. apply H. now left. }
  assert (IH' : Z.of_nat (count_occ string_dec (flat_map f l) name)
                <= Z.of_nat (List.length l)).
  { apply IH. intros b Hb. apply H. now right. }
  lia.
Qed.

End TopServicesFacts.

(** X16.  The entries of topServices have pairwise different names; each
    counts at least one service id and is named "Unknown Service" or after a
    service of the salon. *)
Theorem top_services_have_distinct_known_names :
  forall salonId startDate endDate db,
    let top := Storage.topServices
                 (Storage.getSalonMetrics salonId startDate endDate db) in
    NoDup (map Storage.serviceName top) /\
    Forall (fun e =>
              1 <= Storage.count e /\
              (Storage.serviceName e = "Unknown Service" \/
               exists s, In s (Storage.services db) /\
                         Service.salonId s = salonId /\
                         Service.name s = Storage.serviceName e))
           top.
Proof.
  intros salonId startDate endDate db top. split.
  - unfold top. rewrite topServices_unfold, <- firstn_map. apply NoDup_firstn.
    eapply Permutation_NoDup.
    + apply Permutation_map. symmetry. apply sort_perm.
    + rewrite map_map. simpl.
      apply NoDup_countServices. constructor.
  - rewrite Forall_forall. intros e He.
    apply top_entry_in_histogram in He. destruct He as [Hc Hin]. split.
    + rewrite Hc. now apply occurrences_pos.
    + rewrite countedNames_ids in Hin. apply in_map_iff in Hin.
      destruct Hin as (serviceId & <- & _). apply countedName_known.
Qed.

(** X18.  When no appointment of the salon in the range lists two service ids
    counted under the same name, the count of every top service is at most
    the number of appointments, so the bar the reports page and the dashboard
    draw for it is at most 100% wide. *)
Theorem top_service_bar_fits :
  forall salonId startDate endDate db,
    let m := Storage.getSalonMetrics salonId startDate endDate db in
    (forall a, In a (Storage.appointments db) ->
               Storage.inRange salonId startDate endDate a = true ->
               NoDup (map (Spec.countedName salonId db) (Appointment.serviceIds a))) ->
    Forall (fun e => Storage.count e <= Storage.totalAppointments m /\
                     (Reports.barWidth m e <= 100)%Q)
           (Storage.topServices m).
Proof.
  intros salonId startDate endDate db m Hnd.
  rewrite Forall_forall. intros e He.
  apply top_entry_in_histogram in He. destruct He as [Hc Hin].
  assert (Hle : Storage.count e <= Storage.totalAppointments m).
  { rewrite Hc. unfold Spec.countedNames.
    apply occurrences_flat_map. intros a Ha. apply filter_In in Ha.
    now apply Hnd. }
  assert (Hpos : 1 <= Storage.count e)
    by (rewrite Hc; now apply occurrences_pos).
  split; [exact Hle|].
  unfold Reports.barWidth.
  destruct (Storage.totalAppointments m =? 0) eqn:E.
  - apply Z.eqb_eq in E. lia.
  - assert (Hq : (inject_Z (Storage.count e)
                  / inject_Z (Storage.totalAppointments m) <= 1)%Q).
    { apply Qle_shift_div_r; [rewrite <- (Zlt_Qlt 0); lia|].
      rewrite Qmult_1_l, <- Zle_Qle. exact Hle. }
    lra.
Qed.

Lemma top_service_bar_fits_witness :
  let svc id name := Service.mk id "salon" name None 30 2500 None (Some false)
                                None None None (Some true) None in
  let apt id day ids :=
    Appointment.mk id "salon" "c1" None ids
      (utc 2025 1 day 9 0) (utc 2025 1 day 10 0) "completed" (Some "form")
      2500 None (Some "pending") None None None None None None None in
  let db := Storage.mkDb [svc "sA" "A"; svc "sB" "B"] []
              [apt "a1" 10 ["sB"; "sA"]; apt "a2" 11 ["sA"]] [] in
  let m := Storage.getSalonMetrics "salon" (utc 2025 1 1 0 0) (utc 2025 1 31 0 0) db in
  Forall (fun e => Storage.count e <= Storage.totalAppointments m /\
                   (Reports.barWidth m e <= 100)%Q)
         (Storage.topServices m).
Proof.
  intros svc apt db m.
  apply (top_service_bar_fits "salon" (utc 2025 1 1 0 0) (utc 2025 1 31 0 0) db).
  intros a [<-|[<-|[]]] _.
  - replace (map (Spec.countedName "salon" db) (Appointment.serviceIds (apt "a1" 10 ["sB"; "sA"])))
      with ["B"; "A"] by reflexivity.
    repeat constructor; simpl; intuition discriminate.
  - replace (map (Spec.countedName "salon" db) (Appointment.serviceIds (apt "a2" 11 ["sA"])))
      with ["A"] by reflexivity.
    repeat constructor; simpl; intuition.
Defined.

(* ================================================================== *)
(** ** Ties among the top services *)

Section TieFacts.
Import Storage.

Lemma filter_firstn_skipn {A} (p : A -> bool) n (l : list A) :
  filter p l = (filter p (firstn n l) ++ filter p (skipn n l))%list.
Proof. now rewrite <- filter_app, firstn_skipn. Qed.

(** The sort keeps entries of equal count in the order they had. *)
Lemma insert_stable c x l :
  StronglySorted Spec.descending l ->
  filter (FirstSeen.countedTimes c) (Js.insert Spec.byCount x l)
  = filter (FirstSeen.countedTimes c) (x :: l).
Proof.
  induction 1 as [|y l Hs IH Hy]; [reflexivity|].
  cbn [Js.insert]. unfold Spec.byCount at 1.
  destruct (count y - count x <=? 0) eqn:E; [reflexivity|].
  apply Z.leb_gt in E.
  cbn [filter]. rewrite IH. cbn [filter]. unfold FirstSeen.countedTimes.
  destruct (count x =? c) eqn:Ex; destruct (count y =? c) eqn:Ey; try reflexivity.
  apply Z.eqb_eq in Ex, Ey. lia.
Qed.

Lemma sort_stable c l :
  filter (FirstSeen.countedTimes c) (Js.sort Spec.byCount l)
  = filter (FirstSeen.countedTimes c) l.
Proof.
  induction l as [|x l IH]; [reflexivity|].
  cbn [Js.sort fold_right]. fold (Js.sort Spec.byCount l).
  rewrite insert_stable by apply sort_sorted.
  cbn [filter]. now rewrite IH.
Qed.

(** The keys of the histogram come in the order the names are first seen. *)
Lemma keys_first_seen serviceMap ids : forall m,
  map fst (fold_left (countService serviceMap) ids m)
  = (map fst m
     ++ filter (fun x => negb (existsb (String.eqb x) (map fst m)))
               (FirstSeen.firstSeen
                  (map (fun serviceId =>
                          Js.orString (Js.Map.get serviceId serviceMap)
                                      "Unknown Service") ids)))%list.
Proof.
  induction ids as [|i ids IH]; intros m; cbn [fold_left map FirstSeen.firstSeen].
  - cbn [filter]. now rewrite app_nil_r.
  - rewrite IH. unfold countService.
    set (name := Js.orString (Js.Map.get i serviceMap) "Unknown Service").
    set (seen := FirstSeen.firstSeen _).
    destruct (keys_set name (orElse (Js.Map.get name m) 0 + 1) m) as [Hin Hout].
    destruct (in_dec string_dec name (map fst m)) as [Hi|Hn].
    + rewrite (Hin Hi). f_equal. cbn [filter].
      assert (Hex : existsb (String.eqb name) (map fst m) = true).
      { apply existsb_exists. exists name. split; [exact Hi | apply String.eqb_refl]. }
      rewrite Hex. cbn [negb]. rewrite filter_filter.
      apply filter_ext. intros x.
      destruct (String.eqb x name) eqn:E; [|reflexivity].
      apply String.eqb_eq in E. subst x. now rewrite Hex.
    + rewrite (Hout Hn), <- app_assoc. f_equal. cbn [filter app].
      assert (Hex : existsb (String.eqb name) (map fst m) = false).
      { apply not_true_is_false. intros H. apply existsb_exists in H.
        destruct H as (y & Hy & E). apply String.eqb_eq in E. now subst y. }
      rewrite Hex. cbn [negb]. f_equal. rewrite filter_filter.
      apply filter_ext. intros x. rewrite existsb_app. cbn [existsb].
      rewrite orb_false_r, negb_orb. apply andb_comm.
Qed.

(** A map without duplicate keys is its keys paired with their values. *)
Lemma entries_of_keys (m : Js.Map.t Z) :
  NoDup (map fst m) ->
  m = map (fun k => (k, orElse (Js.Map.get k m) 0)) (map fst m).
Proof.
  intros Hnd. rewrite map_map.
  rewrite <- (map_id m) at 1. apply map_ext_in. intros [k v] Hin.
  cbn [fst]. now rewrite (In_get k v m Hnd Hin).
Qed.

End TieFacts.

(** X17.  Ties keep the order of first encounter: for every count c, the
    top services counted c times are listed in the order in which their names
    first occur among the service ids of the appointments in range (a leading
    part of them, when the list is cut to five). *)
Theorem top_services_ties_keep_first_seen_order :
  forall salonId startDate endDate db c,
    let names := Spec.countedNames salonId startDate endDate db in
    exists cut,
      filter (FirstSeen.countedTimes c)
             (map (fun n => Storage.mkTop n (Spec.occurrences n names))
                  (FirstSeen.firstSeen names))
      = (filter (FirstSeen.countedTimes c)
                (Storage.topServices
                   (Storage.getSalonMetrics salonId startDate endDate db))
         ++ cut)%list.
Proof.
  intros salonId startDate endDate db c names.
  rewrite topServices_unfold.
  set (serviceMap := Js.Map.ofEntries _).
  set (ids := flat_map Appointment.serviceIds _).
  set (hist := fold_left (Storage.countService serviceMap) ids Js.Map.empty).
  set (sorted := Js.sort Spec.byCount (map (fun e => Storage.mkTop (fst e) (snd e)) hist)).
  exists (filter (FirstSeen.countedTimes c) (skipn 5 sorted)).
  rewrite <- filter_firstn_skipn. unfold sorted. rewrite sort_stable.
  f_equal.
  assert (Hnames : names = map (fun serviceId =>
                                  Js.orString (Js.Map.get serviceId serviceMap)
                                              "Unknown Service") ids).
  { unfold names. now rewrite countedNames_ids. }
  assert (Hkeys : map fst hist = FirstSeen.firstSeen names).
  { unfold hist. rewrite keys_first_seen, Hnames.
    change (map fst (@Js.Map.empty Z)) with (@nil string). cbn [app].
    apply forallb_filter_id. apply forallb_forall. intros x _. reflexivity. }
  rewrite (entries_of_keys hist) at 1
    by (apply NoDup_countServices; constructor).
  rewrite map_map, Hkeys. apply map_ext. intros n. cbn [fst snd]. f_equal.
  pose proof (get_countServices serviceMap ids Js.Map.empty n) as Hg.
  rewrite <- Hnames in Hg. fold hist in Hg. rewrite Hg. reflexivity.
Qed.

(* ================================================================== *)
(** ** Creating an appointment *)

Section CreateFacts.
Import Storage.



End CreateFacts.



(* ================================================================== *)
(** ** Updates and look-ups; wider ranges *)

Section UpdateFacts.
Import Storage.

Lemma filter_updateWhere id (set : Appointment.t -> Appointment.t) rows :
  (forall a, hasId id (set a) = hasId id a) ->
  filter (hasId id) (updateWhere (hasId id) set rows)
  = map set (filter (hasId id) rows).
Proof.
  intros Hid. induction rows as [|a rows IH]; simpl; [reflexivity|].
  destruct (hasId id a) eqn:E.
  - rewrite Hid, E. simpl. now rewrite IH.
  - rewrite E. exact IH.
Qed.

Lemma updateWhere_no_match {A} (cond : A -> bool) (set : A -> A) rows :
  filter cond rows = [] -> updateWhere cond set rows = rows.
Proof.
  induction rows as [|a rows IH]; simpl; [reflexivity|].
  destruct (cond a); [discriminate|]. intros H. now rewrite IH.
Qed.

Lemma withAppointments_same db : withAppointments (appointments db) db = db.
Proof. now destruct db. Qed.

Lemma filter_length_le {A} (p q : A -> bool) (l : list A) :
  (forall a, p a = true -> q a = true) ->
  len (filter p l) <= len (filter q l).
Proof.
  intros H.
  assert (Hn : (List.length (filter p l) <= List.length (filter q l))%nat).
  { induction l as [|a l IH]; cbn [filter List.length]; [lia|].
    destruct (p a) eqn:E.
    - rewrite (H a E). cbn [List.length]. lia.
    - destruct (q a); cbn [List.length]; lia. }
  unfold len. lia.
Qed.

Lemma inRange_widens salonId s e s' e' a :
  s' <= s -> e <= e' ->
  inRange salonId s e a = true -> inRange salonId s' e' a = true.
Proof.
  intros Hs He. unfold inRange. intros H.
  apply andb_prop in H. destruct H as [H H3]. apply andb_prop in H.
  destruct H as [H1 H2]. apply Z.leb_le in H2, H3.
  rewrite H1. simpl. apply andb_true_intro. split; apply Z.leb_le; lia.
Qed.

End UpdateFacts.

(** X21.  updateAppointment and cancelAppointment return the row that a
    look-up of the id finds afterwards; when no row has the id they return
    nothing and leave the tables as they were. *)
Theorem update_returns_the_stored_row :
  forall now id db,
    (forall appointment,
        Storage.getAppointment id (fst (Storage.updateAppointment now id appointment db))
        = snd (Storage.updateAppointment now id appointment db)) /\
    (forall reason,
        Storage.getAppointment id (fst (Storage.cancelAppointment now id reason db))
        = snd (Storage.cancelAppointment now id reason db)) /\
    (Storage.getAppointment id db = None ->
       (forall appointment,
           Storage.updateAppointment now id appointment db = (db, None)) /\
       (forall reason,
           Storage.cancelAppointment now id reason db = (db, None))).
Proof.
  intros now id db. split; [|split].
  - intros appointment. unfold Storage.getAppointment, Storage.updateAppointment.
    cbn [fst snd Storage.withAppointments Storage.appointments].
    now rewrite filter_updateWhere by reflexivity.
  - intros reason. unfold Storage.getAppointment, Storage.cancelAppointment.
    cbn [fst snd Storage.withAppointments Storage.appointments].
    now rewrite filter_updateWhere by reflexivity.
  - unfold Storage.getAppointment. intros Hnone.
    assert (Hempty : filter (Storage.hasId id) (Storage.appointments db) = []).
    { destruct (filter (Storage.hasId id) (Storage.appointments db));
        [reflexivity | discriminate]. }
    split; intros x;
      unfold Storage.updateAppointment, Storage.cancelAppointment, Storage.returning;
      rewrite (updateWhere_no_match _ _ _ Hempty), Hempty, withAppointments_same;
      reflexivity.
Qed.

Lemma update_returns_the_stored_row_witness :
  let apt id := Appointment.mk id "salon" "c1" None ["s1"]
                  (utc 2025 1 16 9 0) (utc 2025 1 16 10 0) "pending" (Some "form")
                  5000 None (Some "pending") None None None None None None None in
  let db := Storage.mkDb [] []
              [apt "0b9f2c1e-5a44-4c0b-9d3e-6f1a2b3c4d5e";
               apt "7d1e8a90-3b2c-4f6d-8e7f-0a1b2c3d4e5f"] [] in
  let id := "c4a7e2d0-9f18-4b6a-a3c5-2e8d7f6b1a90" in
  Storage.updateAppointment (utc 2025 1 15 8 0) id
    (Storage.cancellation (utc 2025 1 15 8 0) "no longer needed") db
  = (db, None) /\
  Storage.cancelAppointment (utc 2025 1 15 8 0) id "Cancelled by client" db
  = (db, None).
Proof.
  intros apt db id.
  destruct (update_returns_the_stored_row (utc 2025 1 15 8 0) id db)
    as (_ & _ & Hnone).
  destruct Hnone as [Hu Hc]; [reflexivity|].
  split; [apply Hu | apply Hc].
Defined.

(** X22.  A wider range never shows fewer appointments: when a range
    contains another, its numbers of appointments, of completed appointments
    and of no-shows are at least those of the range contained. *)
Theorem metrics_grow_with_the_range :
  forall salonId startDate endDate startDate' endDate' db,
    startDate' <= startDate -> endDate <= endDate' ->
    let m := Storage.getSalonMetrics salonId startDate endDate db in
    let m' := Storage.getSalonMetrics salonId startDate' endDate' db in
    Storage.totalAppointments m <= Storage.totalAppointments m' /\
    Storage.completedAppointments m <= Storage.completedAppointments m' /\
    Storage.noShows m <= Storage.noShows m'.
Proof.
  intros salonId s e s' e' db Hs He m m'.
  unfold m, m', Storage.getSalonMetrics.
  cbn [Storage.totalAppointments Storage.completedAppointments Storage.noShows].
  rewrite !filter_filter.
  repeat split; apply filter_length_le; intros a H.
  - now apply (inRange_widens salonId s e s' e').
  - apply andb_prop in H. destruct H as [H1 H2].
    rewrite (inRange_widens salonId s e s' e' a Hs He H1). exact H2.
  - apply andb_prop in H. destruct H as [H1 H2].
    rewrite (inRange_widens salonId s e s' e' a Hs He H1). exact H2.
Qed.

Lemma metrics_grow_with_the_range_witness :
  let apt := Appointment.mk "a1" "salon" "c1" None ["s1"]
               (utc 2025 1 16 9 0) (utc 2025 1 16 10 0) "completed" (Some "form")
               5000 None (Some "paid") None None None None None None None in
  let db := Storage.mkDb [] [] [apt] [] in
  Storage.totalAppointments
    (Storage.getSalonMetrics "salon" (utc 2025 1 20 0 0) (utc 2025 1 31 0 0) db)
  <= Storage.totalAppointments
       (Storage.getSalonMetrics "salon" (utc 2025 1 1 0 0) (utc 2025 1 31 0 0) db).
Proof.
  intros apt db.
  apply (metrics_grow_with_the_range "salon" (utc 2025 1 20 0 0) (utc 2025 1 31 0 0)
           (utc 2025 1 1 0 0) (utc 2025 1 31 0 0) db).
  - vm_compute. discriminate.
  - lia.
Defined.

(* ================================================================== *)
(** ** The top services, in full *)

Section TopServicesInFull.
Import Storage.

(** The histogram before the sort: one entry per name counted, in the order
    in which the names are first seen, each with its number of occurrences. *)
Lemma histogram_entries salonId startDate endDate db :
  map (fun e => mkTop (fst e) (snd e))
      (fold_left
         (countService
            (Js.Map.ofEntries
               (map (fun s => (Service.id s, Service.name s))
                    (filter (fun s => String.eqb (Service.salonId s) salonId)
                            (services db)))))
         (flat_map Appointment.serviceIds
                   (filter (inRange salonId startDate endDate) (appointments db)))
         Js.Map.empty)
  = map (fun n => mkTop n (Spec.occurrences n
                             (Spec.countedNames salonId startDate endDate db)))
        (FirstSeen.firstSeen (Spec.countedNames salonId startDate endDate db)).
Proof.
  set (names := Spec.countedNames salonId startDate endDate db).
  set (serviceMap := Js.Map.ofEntries _).
  set (ids := flat_map Appointment.serviceIds _).
  set (hist := fold_left (countService serviceMap) ids Js.Map.empty).
  assert (Hnames : names = map (fun serviceId =>
                                  Js.orString (Js.Map.get serviceId serviceMap)
                                              "Unknown Service") ids).
  { unfold names. now rewrite countedNames_ids. }
  assert (Hkeys : map fst hist = FirstSeen.firstSeen names).
  { unfold hist. rewrite keys_first_seen, Hnames.
    change (map fst (@Js.Map.empty Z)) with (@nil string). cbn [app].
    apply forallb_filter_id. apply forallb_forall. intros x _. reflexivity. }
  rewrite (entries_of_keys hist) at 1
    by (apply NoDup_countServices; constructor).
  rewrite map_map, Hkeys. apply map_ext. intros n. cbn [fst snd]. f_equal.
  pose proof (get_countServices serviceMap ids Js.Map.empty n) as Hg.
  rewrite <- Hnames in Hg. fold hist in Hg. rewrite Hg. reflexivity.
Qed.

(** topServices, from the names counted. *)
Lemma topServices_of_names salonId startDate endDate db :
  topServices (getSalonMetrics salonId startDate endDate db)
  = firstn 5
      (Js.sort Spec.byCount
         (map (fun n => mkTop n (Spec.occurrences n
                                   (Spec.countedNames salonId startDate endDate db)))
              (FirstSeen.firstSeen
                 (Spec.countedNames salonId startDate endDate db)))).
Proof. now rewrite topServices_unfold, histogram_entries. Qed.

Lemma top_length salonId startDate endDate db :
  List.length (topServices (getSalonMetrics salonId startDate endDate db))
  = Nat.min 5 (List.length
                 (FirstSeen.firstSeen
                    (Spec.countedNames salonId startDate endDate db))).
Proof.
  rewrite topServices_of_names, length_firstn.
  now rewrite (Permutation_length (sort_perm _)), length_map.
Qed.

Lemma In_firstSeen name names :
  In name (FirstSeen.firstSeen names) <-> In name names.
Proof.
  induction names as [|n names IH]; cbn [FirstSeen.firstSeen]; [reflexivity|].
  split.
  - intros [->|H]; [now left|]. apply filter_In in H. right. now apply IH.
  - intros [->|H]; [now left|].
    destruct (string_dec name n) as [->|Hne]; [now left|].
    right. apply filter_In. split; [now apply IH|].
    apply negb_true_iff, String.eqb_neq. exact Hne.
Qed.

Lemma NoDup_firstSeen names : NoDup (FirstSeen.firstSeen names).
Proof.
  induction names as [|n names IH]; cbn [FirstSeen.firstSeen]; constructor.
  - intros H. apply filter_In in H. destruct H as [_ H].
    now rewrite String.eqb_refl in H.
  - now apply NoDup_filter.
Qed.

(** A name counted has its entry in the sorted histogram, and either in the
    part that is returned or behind five entries counted at least as often. *)
Lemma counted_name_entry salonId startDate endDate db name :
  In name (Spec.countedNames salonId startDate endDate db) ->
  let occ := Spec.occurrences name (Spec.countedNames salonId startDate endDate db) in
  let top := topServices (getSalonMetrics salonId startDate endDate db) in
  In (mkTop name occ) top \/
  (List.length top = 5%nat /\ Forall (fun e => occ <= count e) top).
Proof.
  intros Hname occ top. unfold top. rewrite topServices_of_names.
  set (sorted := Js.sort Spec.byCount _).
  assert (Hentry : In (mkTop name occ) sorted).
  { apply (Permutation_in _ (Permutation_sym (sort_perm _))).
    apply in_map_iff. exists name. split; [reflexivity|].
    now apply In_firstSeen. }
  rewrite <- (firstn_skipn 5 sorted) in Hentry. apply in_app_or in Hentry.
  destruct Hentry as [Hfirst|Hlater]; [now left|]. right. split.
  - rewrite length_firstn.
    assert (Hlen : (0 < List.length (skipn 5 sorted))%nat)
      by (destruct (skipn 5 sorted); [contradiction | simpl; lia]).
    rewrite length_skipn in Hlen. lia.
  - rewrite Forall_forall. intros e He.
    change occ with (count (mkTop name occ)).
    apply (sorted_prefix_dominates (firstn 5 sorted) (skipn 5 sorted));
      [rewrite firstn_skipn; apply sort_sorted | exact He | exact Hlater].
Qed.

(** Reordering rows. *)
Lemma Permutation_filter_rows {A} (p : A -> bool) (l l' : list A) :
  Permutation l l' -> Permutation (filter p l) (filter p l').
Proof.
  induction 1 as [|x l l' _ IH|x y l|l l' l'' _ IH1 _ IH2]; cbn [filter].
  - constructor.
  - destruct (p x); [now constructor | exact IH].
  - destruct (p x), (p y); try reflexivity. apply perm_swap.
  - now transitivity (filter p l').
Qed.

Lemma countedNames_reordered salonId startDate endDate db rows :
  Permutation rows (appointments db) ->
  Permutation (Spec.countedNames salonId startDate endDate (withAppointments rows db))
              (Spec.countedNames salonId startDate endDate db).
Proof.
  intros Hp. unfold Spec.countedNames, Spec.countedName.
  cbn [withAppointments appointments services].
  apply Permutation_flat_map. now apply Permutation_filter_rows.
Qed.

Lemma firstSeen_length_reordered names names' :
  Permutation names names' ->
  List.length (FirstSeen.firstSeen names) = List.length (FirstSeen.firstSeen names').
Proof.
  intros Hp. apply Permutation_length.
  apply NoDup_Permutation; try apply NoDup_firstSeen.
  intros x. rewrite !In_firstSeen. split; apply Permutation_in;
    [exact Hp | now apply Permutation_sym].
Qed.

End TopServicesInFull.

(** C10.  topServices has at most five entries, in descending order of
    count.  The count of an entry is the number of service ids, over all
    appointments of the salon that start in the range, counted under the
    entry's name; the status plays no part: replacing the status of every
    appointment by any other leaves topServices as it is.  Nothing counted
    is left out but by the cut to five: the list has as many entries as
    there are names counted, up to five, and every name counted has its
    entry in it, or else the list holds five entries each counted at least
    as often. *)
Theorem C10_top_services_ignore_status :
  forall salonId startDate endDate db,
    let names := Spec.countedNames salonId startDate endDate db in
    let top := Storage.topServices
                 (Storage.getSalonMetrics salonId startDate endDate db) in
    (List.length top <= 5)%nat /\
    StronglySorted Spec.descending top /\
    Forall (fun e => Storage.count e
                     = Spec.occurrences (Storage.serviceName e) names)
           top /\
    (forall f,
        Storage.topServices
          (Storage.getSalonMetrics salonId startDate endDate (Spec.relabel f db))
        = top) /\
    List.length top = Nat.min 5 (List.length (FirstSeen.firstSeen names)) /\
    (forall name,
        In name names ->
        In (Storage.mkTop name (Spec.occurrences name names)) top \/
        (List.length top = 5%nat /\
         Forall (fun e => Spec.occurrences name names <= Storage.count e) top)).
Proof.
  intros salonId startDate endDate db names top.
  split; [|split; [|split; [|split; [|split]]]].
  - unfold top. rewrite topServices_unfold. apply firstn_le_length.
  - unfold top. rewrite topServices_unfold. apply firstn_sorted, sort_sorted.
  - rewrite Forall_forall. intros e He.
    now apply top_entry_in_histogram in He.
  - intros f. unfold top. rewrite !topServices_unfold. simpl.
    rewrite filter_inRange_relabel. reflexivity.
  - apply top_length.
  - intros name Hname. now apply counted_name_entry.
Qed.

Lemma C10_top_services_ignore_status_witness :
  let svc id name := Service.mk id "salon" name None 30 2500 None (Some false)
                                None None None (Some true) None in
  let apt id day status ids :=
    Appointment.mk id "salon" "c1" None ids
      (utc 2025 1 day 9 0) (utc 2025 1 day 10 0) status (Some "form")
      2500 None (Some "pending") None None None None None None None in
  let db := Storage.mkDb [svc "sA" "A"; svc "sB" "B"] []
              [apt "a1" 10 "completed" ["sB"; "sA"]; apt "a2" 11 "cancelled" ["sA"];
               apt "a3" 12 "no_show" ["sA"]] [] in
  let top := Storage.topServices
               (Storage.getSalonMetrics "salon" (utc 2025 1 1 0 0)
                  (utc 2025 1 31 0 0) db) in
  In (Storage.mkTop "A" 3) top /\ In (Storage.mkTop "B" 1) top.
Proof.
  intros svc apt db top.
  pose proof (C10_top_services_ignore_status "salon" (utc 2025 1 1 0 0)
                (utc 2025 1 31 0 0) db) as (_ & _ & _ & _ & _ & Hall).
  split.
  - destruct (Hall "A") as [Hin|[Hlen _]].
    + vm_compute. right. now left.
    + exact Hin.
    + vm_compute in Hlen. discriminate Hlen.
  - destruct (Hall "B") as [Hin|[Hlen _]].
    + vm_compute. now left.
    + exact Hin.
    + vm_compute in Hlen. discriminate Hlen.
Defined.

(** X19.  The entries returned are the most frequent ones.  The list holds
    as many entries as there are names counted, up to five; a name that is
    not among them is counted at most as often as every entry that is. *)
Theorem top_services_are_the_most_frequent :
  forall salonId startDate endDate db,
    let names := Spec.countedNames salonId startDate endDate db in
    let top := Storage.topServices
                 (Storage.getSalonMetrics salonId startDate endDate db) in
    List.length top = Nat.min 5 (List.length (FirstSeen.firstSeen names)) /\
    (forall name e,
        ~ In name (map Storage.serviceName top) ->
        In e top ->
        Spec.occurrences name names <= Storage.count e).
Proof.
  intros salonId startDate endDate db names top. split; [apply top_length|].
  intros name e Hout He.
  destruct (in_dec string_dec name names) as [Hname|Hname].
  - destruct (counted_name_entry salonId startDate endDate db name Hname)
      as [Hin|[_ Hall]].
    + exfalso. apply Hout. apply (in_map Storage.serviceName) in Hin. exact Hin.
    + rewrite Forall_forall in Hall. now apply Hall.
  - pose proof (top_entry_in_histogram _ _ _ _ _ He) as [Hc Hin].
    pose proof (occurrences_pos _ _ Hin) as Hpos. rewrite <- Hc in Hpos.
    unfold Spec.occurrences.
    rewrite (proj1 (count_occ_not_In string_dec _ _) Hname). simpl. lia.
Qed.

Lemma top_services_are_the_most_frequent_witness :
  let svc id name := Service.mk id "salon" name None 30 2500 None (Some false)
                                None None None (Some true) None in
  let apt id day ids :=
    Appointment.mk id "salon" "c1" None ids
      (utc 2025 1 day 9 0) (utc 2025 1 day 10 0) "completed" (Some "form")
      2500 None (Some "pending") None None None None None None None in
  let db := Storage.mkDb
              [svc "sA" "A"; svc "sB" "B"; svc "sC" "C"; svc "sD" "D";
               svc "sE" "E"; svc "sF" "F"] []
              [apt "a1" 10 ["sB"; "sC"; "sD"]; apt "a2" 11 ["sE"; "sF"; "sF"];
               apt "a3" 12 ["sA"]] [] in
  let names := Spec.countedNames "salon" (utc 2025 1 1 0 0) (utc 2025 1 31 0 0) db in
  let top := Storage.topServices
               (Storage.getSalonMetrics "salon" (utc 2025 1 1 0 0)
                  (utc 2025 1 31 0 0) db) in
  top = [Storage.mkTop "F" 2; Storage.mkTop "B" 1; Storage.mkTop "C" 1;
         Storage.mkTop "D" 1; Storage.mkTop "E" 1] /\
  Spec.occurrences "A" names = 1 /\
  Spec.occurrences "A" names <= Storage.count (Storage.mkTop "E" 1).
Proof.
  intros svc apt db names top.
  split; [reflexivity|]. split; [reflexivity|].
  apply (proj2 (top_services_are_the_most_frequent "salon" (utc 2025 1 1 0 0)
                  (utc 2025 1 31 0 0) db) "A" (Storage.mkTop "E" 1)).
  - vm_compute. intuition discriminate.
  - vm_compute. do 4 right. now left.
Defined.

(** X23.  The counts do not depend on the order in which the appointment
    rows are stored or returned: for any reordering of the table, the numbers
    of appointments, of completed appointments and of no-shows, the average
    rating, the number of times each service name is counted and the number
    of top services are the same. *)
Theorem counts_ignore_row_order :
  forall salonId startDate endDate db rows,
    Permutation rows (Storage.appointments db) ->
    let m := Storage.getSalonMetrics salonId startDate endDate db in
    let m' := Storage.getSalonMetrics salonId startDate endDate
                (Storage.withAppointments rows db) in
    Storage.totalAppointments m' = Storage.totalAppointments m /\
    Storage.completedAppointments m' = Storage.completedAppointments m /\
    Storage.noShows m' = Storage.noShows m /\
    Storage.averageRating m' = Storage.averageRating m /\
    (forall name,
        Spec.occurrences name
          (Spec.countedNames salonId startDate endDate
             (Storage.withAppointments rows db))
        = Spec.occurrences name (Spec.countedNames salonId startDate endDate db)) /\
    List.length (Storage.topServices m') = List.length (Storage.topServices m).
Proof.
  intros salonId startDate endDate db rows Hp m m'.
  assert (Hin : Permutation
                  (filter (Storage.inRange salonId startDate endDate) rows)
                  (filter (Storage.inRange salonId startDate endDate)
                          (Storage.appointments db)))
    by now apply Permutation_filter_rows.
  pose proof (countedNames_reordered salonId startDate endDate db rows Hp) as Hnames.
  split; [|split; [|split; [|split; [|split]]]].
  - unfold m', m, Storage.getSalonMetrics, Storage.len.
    cbn [Storage.totalAppointments Storage.withAppointments Storage.appointments].
    now rewrite (Permutation_length Hin).
  - unfold m', m, Storage.getSalonMetrics, Storage.len.
    cbn [Storage.completedAppointments Storage.withAppointments Storage.appointments].
    now rewrite (Permutation_length (Permutation_filter_rows _ _ _ Hin)).
  - unfold m', m, Storage.getSalonMetrics, Storage.len.
    cbn [Storage.noShows Storage.withAppointments Storage.appointments].
    now rewrite (Permutation_length (Permutation_filter_rows _ _ _ Hin)).
  - reflexivity.
  - intros name. unfold Spec.occurrences. f_equal.
    now apply (proj1 (Permutation_count_occ string_dec _ _)).
  - unfold m', m. rewrite !top_length.
    now rewrite (firstSeen_length_reordered _ _ Hnames).
Qed.

Lemma counts_ignore_row_order_witness :
  let svc id name := Service.mk id "salon" name None 30 2500 None (Some false)
                                None None None (Some true) None in
  let apt id day status ids :=
    Appointment.mk id "salon" "c1" None ids
      (utc 2025 1 day 9 0) (utc 2025 1 day 10 0) status (Some "form")
      2500 None (Some "pending") None None None None None None None in
  let a1 := apt "a1" 10 "completed" ["sA"] in
  let a2 := apt "a2" 11 "no_show" ["sB"] in
  let db := Storage.mkDb [svc "sA" "A"; svc "sB" "B"] [] [a1; a2] [] in
  let m := Storage.getSalonMetrics "salon" (utc 2025 1 1 0 0) (utc 2025 1 31 0 0) db in
  let m' := Storage.getSalonMetrics "salon" (utc 2025 1 1 0 0) (utc 2025 1 31 0 0)
              (Storage.withAppointments [a2; a1] db) in
  Storage.topServices m = [Storage.mkTop "A" 1; Storage.mkTop "B" 1] /\
  Storage.topServices m' = [Storage.mkTop "B" 1; Storage.mkTop "A" 1] /\
  Storage.totalAppointments m' = Storage.totalAppointments m /\
  Storage.completedAppointments m' = Storage.completedAppointments m /\
  Storage.noShows m' = Storage.noShows m.
Proof.
  intros svc apt a1 a2 db m m'.
  split; [reflexivity|]. split; [reflexivity|].
  destruct (counts_ignore_row_order "salon" (utc 2025 1 1 0 0) (utc 2025 1 31 0 0)
              db [a2; a1]) as (Ht & Hc & Hn & _).
  - apply perm_swap.
  - repeat split; assumption.
Defined.
